(** * Composite material analysis tool: the Material Properties module

    A shallow embedding of [streamlit_app.py].  The script keeps a
    constituent registry ([materials_db], fibers and matrices) and a
    store of computed composites ([composite_definitions]) in the
    Streamlit session state; [material_properties_module] renders three
    tabs that add fibers, add matrices and compute a composite by the
    generalized rule of mixtures.

    The script is read twice.
    - The exact reading, at the top level, covers the whole module.
      Python [float] values are exact rationals ([Q]): the sums and
      quotients are those of the formulas, without rounding, infinities
      or NaN, and the volume-fraction inputs of the two loops of the
      Composite Definition tab are separate inputs of the run.  It
      carries what depends on neither: the two Add forms, what a run
      does to the three dictionaries, the figures of the Carbon/Epoxy
      scenario, and the identities of the formulas over exact
      arithmetic.
    - The binary64 reading, module [F64], is centred on the Composite
      Definition tab, with the two registry tabs and the main logic
      around it.  Floats are IEEE 754 binary64 numbers, and the
      volume-fraction inputs are registered under their keys, so that a
      key asked for twice raises as it does in Streamlit.  It carries
      what depends on rounding, on overflow and underflow, or on the
      keys, and what the composite definitions hold over a session.

    Conventions of both readings.
    - Float division raises [ZeroDivisionError] on a zero divisor, as in
      Python.
    - A Python [dict] is an association list in insertion order; assigning
      to a present key keeps its position.
    - A script run is a computation over the session state and the page
      rendered so far; an exception aborts the run and keeps the
      mutations made before it.
    - Widget values are inputs of the run.  Tables, charts and headings,
      which only display, are left out. *)

From Stdlib Require Import QArith Qabs Qround ZArith List String Ascii Bool.
From Stdlib Require Import DecimalString Lqa.
From Stdlib Require Import Floats.
Import ListNotations.

Set Warnings "-inexact-float".

Local Open Scope Q_scope.

(** ** Python values *)

Module Py.

Inductive exn : Type :=
| KeyError (key : string)
| ZeroDivisionError
| DuplicateWidgetID (key : string).   (* raised by Streamlit *)

Inductive result (A : Type) : Type :=
| Ok (a : A)
| Raise (e : exn).
Arguments Ok {A} a.
Arguments Raise {A} e.

Definition bind {A B : Type} (c : result A) (k : A -> result B) : result B :=
  match c with
  | Ok a => k a
  | Raise e => Raise e
  end.

(** [bool(s)] for a string: the empty string is false. *)
Definition str_truthy (s : string) : bool :=
  match s with
  | EmptyString => false
  | String _ _ => true
  end.

(** [a / b] on floats. *)
Definition truediv (a b : Q) : result Q :=
  if Qeq_bool b 0 then Raise ZeroDivisionError else Ok (a / b).

(** [abs(a)]. *)
Definition abs (a : Q) : Q := Qabs a.

End Py.

Import Py.

Declare Scope py_scope.
Delimit Scope py_scope with py.
Notation "x <- c ;; k" := (Py.bind c (fun x => k))
  (at level 61, c at next level, right associativity) : py_scope.

(** ** Python dictionaries, in insertion order *)

Module PyDict.
Section Dict.

Context {V : Type}.

Definition t : Type := list (string * V).

Definition empty : t := [].

(** [d[k]] *)
Fixpoint getitem (d : t) (k : string) : result V :=
  match d with
  | [] => Raise (KeyError k)
  | (k', v) :: d' => if String.eqb k' k then Ok v else getitem d' k
  end.

(** [d.get(k)] *)
Fixpoint get (d : t) (k : string) : option V :=
  match d with
  | [] => None
  | (k', v) :: d' => if String.eqb k' k then Some v else get d' k
  end.

(** [d[k] = v]: a present key keeps its position, a new key goes last. *)
Fixpoint setitem (d : t) (k : string) (v : V) : t :=
  match d with
  | [] => [(k, v)]
  | (k', v') :: d' =>
      if String.eqb k' k then (k', v) :: d' else (k', v') :: setitem d' k v
  end.

Definition items (d : t) : list (string * V) := d.

Definition keys (d : t) : list string := map fst d.

Definition values (d : t) : list V := map snd d.

(** [bool(d)]: the empty dictionary is false. *)
Definition truthy (d : t) : bool :=
  match d with
  | [] => false
  | _ :: _ => true
  end.

(** A dictionary holds each key once. *)
Definition wf (d : t) : Prop := NoDup (keys d).

End Dict.
Arguments t V : clear implicits.
End PyDict.

(** ** numpy *)

Module Np.

(** Default relative tolerance of [numpy.isclose]. *)
Definition default_rtol : Q := 1e-05.

(** [numpy.isclose(a, b, rtol, atol)] on finite scalars, as numpy
    documents it: [absolute(a - b) <= (atol + rtol * absolute(b))]. *)
Definition isclose (a b rtol atol : Q) : bool :=
  Qle_bool (Py.abs (a - b)) (atol + rtol * Py.abs b).

End Np.

(** ** Session state *)

Module Constituent.
(** The dictionary stored per fiber or matrix: keys ['E'], ['nu'],
    ['G'], ['density']. *)
Record t : Type := mk { E : Q; nu : Q; G : Q; density : Q }.
End Constituent.

Module Composite.
(** The dictionary stored per composite. *)
Record t : Type := mk {
  E1 : Q;
  E2 : Q;
  G12 : Q;
  nu12 : Q;
  nu21 : Q;
  density : Q;
  fiber_constituents : PyDict.t Q;
  matrix_constituents : PyDict.t Q
}.
End Composite.

(** [st.session_state.materials_db] *)
Record materials_db : Type := {
  fibers : PyDict.t Constituent.t;
  matrices : PyDict.t Constituent.t
}.

(** [st.session_state], without [laminate_layers], which this module
    never touches. *)
Record session_state : Type := {
  db : materials_db;
  composite_definitions : PyDict.t Composite.t
}.

(** The state the script initialises on the first run of a session. *)
Definition initial_session_state : session_state :=
  {| db := {| fibers := PyDict.empty; matrices := PyDict.empty |};
     composite_definitions := PyDict.empty |}.

(** ** The rule-of-mixtures computation (the body of the Calculate branch) *)

Module Acc.
(** The five accumulators of the computation. *)
Record t : Type := mk {
  E1 : Q;
  E2_denominator : Q;
  G12_denominator : Q;
  nu12 : Q;
  density : Q
}.

Definition init : t := mk 0.0 0.0 0.0 0.0 0.0.
End Acc.

Local Open Scope py_scope.

(** One iteration of either loop: look the constituent up, then update
    the accumulators in the order of the source. *)
Definition contribution (table : PyDict.t Constituent.t) (a : Acc.t)
    (item : string * Q) : result Acc.t :=
  let (name, vf) := item in
  c <- PyDict.getitem table name ;;
  let E1 := Acc.E1 a + Constituent.E c * vf in
  q <- truediv vf (Constituent.E c) ;;
  let E2_denominator := Acc.E2_denominator a + q in
  g <- truediv vf (Constituent.G c) ;;
  let G12_denominator := Acc.G12_denominator a + g in
  let nu12 := Acc.nu12 a + Constituent.nu c * vf in
  let density := Acc.density a + Constituent.density c * vf in
  Ok (Acc.mk E1 E2_denominator G12_denominator nu12 density).

(** [for name, vf in selections.items(): ...] *)
Fixpoint contributions (table : PyDict.t Constituent.t)
    (items : list (string * Q)) (a : Acc.t) : result Acc.t :=
  match items with
  | [] => Ok a
  | item :: rest =>
      a' <- contribution table a item ;;
      contributions table rest a'
  end.

(** Lines "E1 = 0.0" to the construction of the stored dictionary. *)
Definition compute_composite (m : materials_db)
    (fiber_selections matrix_selections : PyDict.t Q) : result Composite.t :=
  a <- contributions (fibers m) (PyDict.items fiber_selections) Acc.init ;;
  a <- contributions (matrices m) (PyDict.items matrix_selections) a ;;
  E2 <- truediv 1 (Acc.E2_denominator a) ;;
  G12 <- truediv 1 (Acc.G12_denominator a) ;;
  nu21 <- truediv (Acc.nu12 a * E2) (Acc.E1 a) ;;
  Ok {| Composite.E1 := Acc.E1 a;
        Composite.E2 := E2;
        Composite.G12 := G12;
        Composite.nu12 := Acc.nu12 a;
        Composite.nu21 := nu21;
        Composite.density := Acc.density a;
        Composite.fiber_constituents := fiber_selections;
        Composite.matrix_constituents := matrix_selections |}.

(** ** Formatting *)

(** Round a non-negative rational to the nearest integer, ties to even. *)
Definition round_half_even (x : Q) : Z :=
  let f := Qfloor x in
  match Qcompare (x - inject_Z f) (1 # 2) with
  | Lt => f
  | Gt => (f + 1)%Z
  | Eq => if Z.even f then f else (f + 1)%Z
  end.

(** The character of a decimal digit. *)
Definition digit (d : Z) : string :=
  String (ascii_of_nat (48 + Z.to_nat d)) EmptyString.

(** [f"{x:.2f}"]: sign, integer part, point, two decimals. *)
Definition format_2f (x : Q) : string :=
  let h := round_half_even (Qabs x * 100) in
  ((if Qle_bool 0 x then EmptyString else "-"%string)
   ++ DecimalString.NilZero.string_of_uint (N.to_uint (Z.to_N (h / 100)))
   ++ "."
   ++ digit ((h / 10) mod 10) ++ digit (h mod 10))%string.

(** ** A script run *)

Module St.

(** The status elements the script writes to the page. *)
Inductive element : Type :=
| success (body : string)
| error (body : string)
| warning (body : string)
| info (body : string).

(** What a run has done so far: the session state, which outlives the
    run, and the page. *)
Record run : Type := mk { session : session_state; page : list element }.

Definition script (A : Type) : Type := run -> result A * run.

Definition ret {A : Type} (a : A) : script A := fun r => (Ok a, r).

Definition bind {A B : Type} (c : script A) (k : A -> script B) : script B :=
  fun r =>
    match c r with
    | (Ok a, r') => k a r'
    | (Raise e, r') => (Raise e, r')
    end.

(** Read [st.session_state]. *)
Definition get : script session_state := fun r => (Ok (session r), r).

(** Mutate [st.session_state]. *)
Definition modify (f : session_state -> session_state) : script unit :=
  fun r => (Ok tt, mk (f (session r)) (page r)).

(** Append an element to the page. *)
Definition write (e : element) : script unit :=
  fun r => (Ok tt, mk (session r) (page r ++ [e])).

(** Run a pure computation that may raise. *)
Definition lift {A : Type} (c : result A) : script A := fun r => (c, r).

(** A fresh run on session state [s]. *)
Definition start (s : session_state) : run := mk s [].

End St.

Declare Scope script_scope.
Delimit Scope script_scope with script.
Notation "x <- c ;; k" := (St.bind c (fun x => k))
  (at level 61, c at next level, right associativity) : script_scope.
Notation "c ;; k" := (St.bind c (fun _ => k))
  (at level 61, right associativity) : script_scope.

(** ** Widget inputs of one run *)

Record widgets : Type := {
  fiber_name : string;
  E_fiber : Q;
  nu_fiber : Q;
  G_fiber : Q;
  density_fiber : Q;
  add_fiber : bool;              (* st.button("Add Fiber") *)
  matrix_name : string;
  E_matrix : Q;
  nu_matrix : Q;
  G_matrix : Q;
  density_matrix : Q;
  add_matrix : bool;             (* st.button("Add Matrix") *)
  composite_name : string;
  fiber_vf : string -> Q;        (* the volume-fraction input of each fiber *)
  matrix_vf : string -> Q;       (* the volume-fraction input of each matrix *)
  calculate : bool               (* st.button("Calculate Composite Properties") *)
}.

(** The bounds the number inputs are declared with ([min_value],
    [max_value]); Streamlit returns no value outside them. *)
Definition constituent_bounds (c : Constituent.t) : Prop :=
  0.1 <= Constituent.E c /\
  0.0 <= Constituent.nu c <= 0.5 /\
  0.1 <= Constituent.G c /\
  0.1 <= Constituent.density c.

(** ** material_properties_module *)

Definition set_fiber (name : string) (c : Constituent.t) (s : session_state)
    : session_state :=
  {| db := {| fibers := PyDict.setitem (fibers (db s)) name c;
              matrices := matrices (db s) |};
     composite_definitions := composite_definitions s |}.

Definition set_matrix (name : string) (c : Constituent.t) (s : session_state)
    : session_state :=
  {| db := {| fibers := fibers (db s);
              matrices := PyDict.setitem (matrices (db s)) name c |};
     composite_definitions := composite_definitions s |}.

Definition set_composite (name : string) (c : Composite.t) (s : session_state)
    : session_state :=
  {| db := db s;
     composite_definitions := PyDict.setitem (composite_definitions s) name c |}.

Local Open Scope script_scope.
Local Open Scope string_scope.

(** [with tab1:] the fiber form and the fiber table. *)
Definition tab1 (w : widgets) : St.script unit :=
  (if add_fiber w then
     if str_truthy (fiber_name w) then
       St.modify (set_fiber (fiber_name w)
                    (Constituent.mk (E_fiber w) (nu_fiber w) (G_fiber w)
                       (density_fiber w))) ;;
       St.write (St.success ("Added " ++ fiber_name w ++ " fiber to database"))
     else
       St.write (St.error "Please enter a fiber name")
   else St.ret tt) ;;
  s <- St.get ;;
  if PyDict.truthy (fibers (db s)) then St.ret tt
  else St.write (St.info "No fibers defined yet").

(** [with tab2:] the matrix form and the matrix table. *)
Definition tab2 (w : widgets) : St.script unit :=
  (if add_matrix w then
     if str_truthy (matrix_name w) then
       St.modify (set_matrix (matrix_name w)
                    (Constituent.mk (E_matrix w) (nu_matrix w) (G_matrix w)
                       (density_matrix w))) ;;
       St.write (St.success ("Added " ++ matrix_name w ++ " matrix to database"))
     else
       St.write (St.error "Please enter a matrix name")
   else St.ret tt) ;;
  s <- St.get ;;
  if PyDict.truthy (matrices (db s)) then St.ret tt
  else St.write (St.info "No matrices defined yet").

(** The selection loops: one number input per registered constituent,
    in the order of the registry; returns the selections and their total. *)
Definition select (table : PyDict.t Constituent.t) (vf_input : string -> Q)
    : PyDict.t Q * Q :=
  fold_left
    (fun (st : PyDict.t Q * Q) (item : string * Constituent.t) =>
       let (selections, total) := st in
       let (name, props) := item in
       let vf := vf_input name in
       (PyDict.setitem selections name vf, total + vf))
    (PyDict.items table) (PyDict.empty, 0.0).

(** The volume-fraction balance check; the message, when there is one. *)
Definition check_balance (total_fiber_vf total_matrix_vf : Q) : option string :=
  if negb (Np.isclose (total_fiber_vf + total_matrix_vf) 1.0 Np.default_rtol 0.01)
  then Some ("Total volume fractions must sum to 1.0 (current: "
             ++ format_2f (total_fiber_vf + total_matrix_vf) ++ ")")
  else None.

(** [not vf_error] *)
Definition not_ (vf_error : option string) : bool :=
  match vf_error with
  | None => true
  | Some msg => negb (str_truthy msg)
  end.

(** The Calculate branch: the button and its guard, the computation, the
    store into [composite_definitions]. *)
Definition calculate_composite (w : widgets)
    (fiber_selections matrix_selections : PyDict.t Q) (vf_error : option string)
    : St.script unit :=
  if calculate w && not_ vf_error && str_truthy (composite_name w) then
    s <- St.get ;;
    c <- St.lift (compute_composite (db s) fiber_selections matrix_selections) ;;
    St.modify (set_composite (composite_name w) c)
  else St.ret tt.

(** [with tab3:] the composite definition, in the exact reading: no key
    is registered for the number inputs and the arithmetic is exact.
    [F64.tab3] is the tab with its keys, on floats. *)
Definition tab3 (w : widgets) : St.script unit :=
  s <- St.get ;;
  if negb (PyDict.truthy (fibers (db s))) || negb (PyDict.truthy (matrices (db s)))
  then St.write (St.warning "Please define at least one fiber and one matrix first")
  else
    let (fiber_selections, total_fiber_vf) := select (fibers (db s)) (fiber_vf w) in
    let (matrix_selections, total_matrix_vf) := select (matrices (db s)) (matrix_vf w) in
    let vf_error := check_balance total_fiber_vf total_matrix_vf in
    match vf_error with
    | Some msg => St.write (St.error msg)
    | None => St.ret tt
    end ;;
    calculate_composite w fiber_selections matrix_selections vf_error.

Definition material_properties_module (w : widgets) : St.script unit :=
  tab1 w ;; tab2 w ;; tab3 w.

(** ** The rule of mixtures as the specification words it *)

Module Spec.

(** The selected constituents with their volume fractions: all
    registered fibers, then all registered matrices, each in registry
    insertion order, zero fractions included. *)
Definition constituents (m : materials_db) (fvf mvf : string -> Q)
    : list (Constituent.t * Q) :=
  map (fun item : string * Constituent.t => (snd item, fvf (fst item))) (fibers m)
  ++ map (fun item : string * Constituent.t => (snd item, mvf (fst item))) (matrices m).

(** The constituents an assignment selects from a registry mapping, with
    their fractions, in the order of the assignment. *)
Definition assigned (table : PyDict.t Constituent.t) (assignment : PyDict.t Q)
    : list (Constituent.t * Q) :=
  flat_map
    (fun item : string * Q =>
       match PyDict.get table (fst item) with
       | Some c => [(c, snd item)]
       | None => []
       end)
    assignment.

(** The constituents a pair of assignments selects: fibers first, then
    matrices. *)
Definition selected_constituents (m : materials_db)
    (fiber_assignment matrix_assignment : PyDict.t Q)
    : list (Constituent.t * Q) :=
  assigned (fibers m) fiber_assignment ++ assigned (matrices m) matrix_assignment.

(** An assignment over registered names. *)
Definition over_registered (table : PyDict.t Constituent.t)
    (assignment : PyDict.t Q) : Prop :=
  forall name, In name (PyDict.keys assignment) -> In name (PyDict.keys table).

(** The sum over the constituents [i] of [term constituent_i V_i], taken
    from the left. *)
Definition sigma (term : Constituent.t -> Q -> Q)
    (cs : list (Constituent.t * Q)) : Q :=
  fold_left (fun acc cv => acc + term (fst cv) (snd cv)) cs 0.0.

Definition E1 cs := sigma (fun c V => Constituent.E c * V) cs.
Definition inv_E2 cs := sigma (fun c V => V / Constituent.E c) cs.
Definition E2 cs := 1 / inv_E2 cs.
Definition inv_G12 cs := sigma (fun c V => V / Constituent.G c) cs.
Definition G12 cs := 1 / inv_G12 cs.
Definition nu12 cs := sigma (fun c V => Constituent.nu c * V) cs.
Definition nu21 cs := nu12 cs * E2 cs / E1 cs.
Definition density cs := sigma (fun c V => Constituent.density c * V) cs.

(** The record the rule of mixtures gives for constituents [cs],
    keeping the two assignments it was derived from. *)
Definition rule_of_mixtures (cs : list (Constituent.t * Q))
    (fiber_assignment matrix_assignment : PyDict.t Q) : Composite.t :=
  {| Composite.E1 := E1 cs;
     Composite.E2 := E2 cs;
     Composite.G12 := G12 cs;
     Composite.nu12 := nu12 cs;
     Composite.nu21 := nu21 cs;
     Composite.density := density cs;
     Composite.fiber_constituents := fiber_assignment;
     Composite.matrix_constituents := matrix_assignment |}.

(** [d'] is [d] with [v] inserted or overwritten under [name]: the
    last write wins, no other key changes, and a new name goes last. *)
Definition upserted {V : Type} (d d' : PyDict.t V) (name : string) (v : V)
    : Prop :=
  PyDict.get d' name = Some v /\
  (forall other, other <> name -> PyDict.get d' other = PyDict.get d other) /\
  PyDict.keys d' =
    match PyDict.get d name with
    | Some _ => PyDict.keys d
    | None => (PyDict.keys d ++ [name])%list
    end.

(** The sum of the fractions of an assignment. *)
Definition total (assignment : PyDict.t Q) : Q :=
  fold_left Qplus (PyDict.values assignment) 0.0.

(** [x] agrees with the decimal [v] to two decimal places. *)
Definition approx_2dp (x v : Q) : Prop := Qabs (x - v) <= 0.005.

End Spec.

(** Every registered constituent has positive moduli. *)
Definition positive_moduli (table : PyDict.t Constituent.t) : Prop :=
  forall name c, In (name, c) table ->
    0 < Constituent.E c /\ 0 < Constituent.G c.

(** The fractions entered for the constituents of [table] lie in [0, 1]. *)
Definition fractions_in_range (table : PyDict.t Constituent.t)
    (vf : string -> Q) : Prop :=
  forall name, In name (PyDict.keys table) -> 0.0 <= vf name <= 1.0.

(** The assignment the selection loop builds from a registry table. *)
Definition selected (table : PyDict.t Constituent.t) (vf : string -> Q)
    : PyDict.t Q :=
  map (fun item : string * Constituent.t => (fst item, vf (fst item))) table.

(** One iteration of the computation loops once the constituent is at
    hand and neither division fails. *)
Definition accumulate (a : Acc.t) (cv : Constituent.t * Q) : Acc.t :=
  let (c, vf) := cv in
  Acc.mk (Acc.E1 a + Constituent.E c * vf)
         (Acc.E2_denominator a + vf / Constituent.E c)
         (Acc.G12_denominator a + vf / Constituent.G c)
         (Acc.nu12 a + Constituent.nu c * vf)
         (Acc.density a + Constituent.density c * vf).

(** Every registered constituent has non-zero moduli. *)
Definition nonzero_moduli (table : PyDict.t Constituent.t) : Prop :=
  forall name c, In (name, c) table ->
    ~ Constituent.E c == 0 /\ ~ Constituent.G c == 0.

(** [a + f x1 + ... + f xn], summed from the left. *)
Definition sum_from {A : Type} (f : A -> Q) (l : list A) (a : Q) : Q :=
  fold_left (fun acc x => acc + f x) l a.

(** The run the Calculate branch starts from: the page with the balance
    message, when there is one. *)
Definition after_check (vf_error : option string) (r : St.run) : St.run :=
  match vf_error with
  | Some msg => St.mk (St.session r) (St.page r ++ [St.error msg])
  | None => r
  end.

(** The constituent forms hold values within their declared bounds. *)
Definition forms_in_bounds (w : widgets) : Prop :=
  constituent_bounds
    (Constituent.mk (E_fiber w) (nu_fiber w) (G_fiber w) (density_fiber w)) /\
  constituent_bounds
    (Constituent.mk (E_matrix w) (nu_matrix w) (G_matrix w) (density_matrix w)).

(** ** The Carbon/Epoxy scenario *)

Module Scenario.

Definition carbon : Constituent.t := Constituent.mk 230.0 0.2 90.0 1.8.
Definition epoxy : Constituent.t := Constituent.mk 3.5 0.35 1.3 1.2.

Definition registry : materials_db :=
  {| fibers := [("Carbon", carbon)]; matrices := [("Epoxy", epoxy)] |}.

Definition session : session_state :=
  {| db := registry; composite_definitions := PyDict.empty |}.

(** The widgets with the constituent inputs at their declared defaults,
    a composite name, the two volume fractions, and the Calculate button
    pressed or not. *)
Definition composite_form (name : string) (vf_carbon vf_epoxy : Q)
    (pressed : bool) : widgets :=
  {| fiber_name := "Carbon"; E_fiber := 230.0; nu_fiber := 0.2;
     G_fiber := 90.0; density_fiber := 1.8; add_fiber := false;
     matrix_name := "Epoxy"; E_matrix := 3.5; nu_matrix := 0.35;
     G_matrix := 1.3; density_matrix := 1.2; add_matrix := false;
     composite_name := name;
     fiber_vf := fun _ => vf_carbon; matrix_vf := fun _ => vf_epoxy;
     calculate := pressed |}.

(** The widgets with the constituent inputs at their declared defaults,
    the two names typed in and the Add buttons pressed or not. *)
Definition add_form (fiber matrix : string) (press_fiber press_matrix : bool)
    : widgets :=
  {| fiber_name := fiber; E_fiber := 230.0; nu_fiber := 0.2;
     G_fiber := 90.0; density_fiber := 1.8; add_fiber := press_fiber;
     matrix_name := matrix; E_matrix := 3.5; nu_matrix := 0.35;
     G_matrix := 1.3; density_matrix := 1.2; add_matrix := press_matrix;
     composite_name := EmptyString;
     fiber_vf := fun _ => 0.6; matrix_vf := fun _ => 0.4;
     calculate := false |}.

End Scenario.

(** ** The main app logic *)

(** The analysis modes of the sidebar radio. *)
Inductive app_mode : Type :=
| Material_Properties
| Single_Ply_Analysis
| Laminate_Analysis
| Failure_Prediction.

(** [if app_mode == "Material Properties": ... elif ...]: only the first
    mode is implemented, the others show a note. *)
Definition main (mode : app_mode) (w : widgets) : St.script unit :=
  match mode with
  | Material_Properties => material_properties_module w
  | Single_Ply_Analysis
  | Laminate_Analysis
  | Failure_Prediction =>
      St.write (St.warning
        "Implementation note: This module would need to be updated to select from defined composites")
  end.

(** The session state one run of the script leaves. *)
Definition next_session (mode : app_mode) (w : widgets) (s : session_state)
    : session_state :=
  St.session (snd (main mode w (St.start s))).

(** All number inputs hold values within their declared bounds. *)
Definition widgets_in_bounds (w : widgets) : Prop :=
  forms_in_bounds w /\
  (forall name, 0.0 <= fiber_vf w name <= 1.0) /\
  (forall name, 0.0 <= matrix_vf w name <= 1.0).

(** The session states a session can be in: the initial one, and what a
    run of the script leaves from one of them, in any mode and with any
    inputs within bounds. *)
Inductive reachable : session_state -> Prop :=
| reachable_initial : reachable initial_session_state
| reachable_run (mode : app_mode) (w : widgets) (s : session_state) :
    reachable s -> widgets_in_bounds w -> reachable (next_session mode w s).

(** ** Session states after each tab *)

(** The session state after [tab1]. *)
Definition after_tab1 (w : widgets) (s : session_state) : session_state :=
  if add_fiber w && str_truthy (fiber_name w)
  then set_fiber (fiber_name w)
         (Constituent.mk (E_fiber w) (nu_fiber w) (G_fiber w) (density_fiber w)) s
  else s.

(** The session state after [tab2]. *)
Definition after_tab2 (w : widgets) (s : session_state) : session_state :=
  if add_matrix w && str_truthy (matrix_name w)
  then set_matrix (matrix_name w)
         (Constituent.mk (E_matrix w) (nu_matrix w) (G_matrix w) (density_matrix w)) s
  else s.

(** Whether [tab3] reaches the computation. *)
Definition computes (w : widgets) (s : session_state) : bool :=
  PyDict.truthy (fibers (db s)) && PyDict.truthy (matrices (db s))
  && calculate w
  && not_ (check_balance (snd (select (fibers (db s)) (fiber_vf w)))
                         (snd (select (matrices (db s)) (matrix_vf w))))
  && str_truthy (composite_name w).

(** The session state after [tab3]. *)
Definition after_tab3 (w : widgets) (s : session_state) : session_state :=
  if computes w s then
    match compute_composite (db s)
            (fst (select (fibers (db s)) (fiber_vf w)))
            (fst (select (matrices (db s)) (matrix_vf w))) with
    | Ok c => set_composite (composite_name w) c s
    | Raise _ => s
    end
  else s.

(** ** Invariants of the session state *)

(** A registry mapping holds each name once, no empty name, and only
    constituents within the declared bounds of the form. *)
Definition constituents_ok (table : PyDict.t Constituent.t) : Prop :=
  PyDict.wf table /\
  forall name c, In (name, c) table ->
    name <> EmptyString /\ constituent_bounds c.

(** ** Comparing computations *)

(** Two composites with the same six properties. *)
Definition same_properties (c c' : Composite.t) : Prop :=
  Composite.E1 c == Composite.E1 c' /\
  Composite.E2 c == Composite.E2 c' /\
  Composite.G12 c == Composite.G12 c' /\
  Composite.nu12 c == Composite.nu12 c' /\
  Composite.nu21 c == Composite.nu21 c' /\
  Composite.density c == Composite.density c'.

(** Two computations that raise the same exception or return composites
    with the same properties. *)
Definition agree (r r' : result Composite.t) : Prop :=
  match r, r' with
  | Ok c, Ok c' => same_properties c c'
  | Raise e, Raise e' => e = e'
  | _, _ => False
  end.

(** The end of the computation, from the five sums over constituents
    [cs]: the three divisions and the record. *)
Definition finish (cs : list (Constituent.t * Q))
    (fiber_selections matrix_selections : PyDict.t Q) : result Composite.t :=
  (E2 <- truediv 1 (Spec.inv_E2 cs) ;;
   G12 <- truediv 1 (Spec.inv_G12 cs) ;;
   nu21 <- truediv (Spec.nu12 cs * E2) (Spec.E1 cs) ;;
   Ok {| Composite.E1 := Spec.E1 cs;
         Composite.E2 := E2;
         Composite.G12 := G12;
         Composite.nu12 := Spec.nu12 cs;
         Composite.nu21 := nu21;
         Composite.density := Spec.density cs;
         Composite.fiber_constituents := fiber_selections;
         Composite.matrix_constituents := matrix_selections |})%py.

(** The five sums of two lists of constituents are equal. *)
Definition same_sums (cs cs' : list (Constituent.t * Q)) : Prop :=
  Spec.E1 cs == Spec.E1 cs' /\
  Spec.inv_E2 cs == Spec.inv_E2 cs' /\
  Spec.inv_G12 cs == Spec.inv_G12 cs' /\
  Spec.nu12 cs == Spec.nu12 cs' /\
  Spec.density cs == Spec.density cs'.

(** An assignment without its zero fractions. *)
Definition without_zeros (assignment : PyDict.t Q) : PyDict.t Q :=
  filter (fun item : string * Q => negb (Qeq_bool (snd item) 0)) assignment.

(** * The script on binary64 floats

    The Composite Definition tab again, with the two things the exact
    reading above leaves out: Python floats as IEEE 754 binary64 numbers
    (Rocq's primitive floats, whose operations round to nearest, ties to
    even, as Python's do), and the keys under which Streamlit registers
    the volume-fraction inputs; then the two registry tabs and the main
    logic on the same run.  The statements that depend on rounding, on
    overflow or on those keys are made about this module. *)

Module F64.

Local Open Scope float_scope.

(** ** Python floats *)

(** [x == 0.0]: true of both zeros, false of NaN. *)
Definition is_zero (x : float) : bool := x =? 0.

(** [a / b]: Python raises on a zero divisor, where IEEE 754 gives an
    infinity or NaN. *)
Definition truediv (a b : float) : result float :=
  if is_zero b then Raise ZeroDivisionError else Ok (a / b).

(** The rational number a finite float stands for. *)
Definition exact (x : float) : option Q :=
  match Prim2SF x with
  | S754_zero _ => Some (Qmake 0 1)
  | S754_finite s m e =>
      let magnitude :=
        match e with
        | Z0 => Qmake (Zpos m) 1
        | Zpos p => Qmake (Zpos m * Z.pow 2 (Zpos p)) 1
        | Zneg p => Qmake (Zpos m) (Pos.pow 2 p)
        end in
      Some (if s then Qopp magnitude else magnitude)
  | S754_infinity _ => None
  | S754_nan => None
  end.

(** [f"{x:.2f}"]: Python rounds the exact value of the float, ties to
    even. *)
Definition format_2f (x : float) : string :=
  match Prim2SF x with
  | S754_nan => "nan"%string
  | S754_infinity s => if s then "-inf"%string else "inf"%string
  | S754_zero s => if s then "-0.00"%string else "0.00"%string
  | S754_finite _ _ _ =>
      match exact x with
      | Some q => format_2f q
      | None => EmptyString
      end
  end.

(** ** numpy *)

Module Np.

(** Default relative tolerance of [numpy.isclose]. *)
Definition default_rtol : float := 1e-05.

(** [numpy.isclose(a, b, rtol, atol)] for a finite [b], as numpy
    documents it: [absolute(a - b) <= (atol + rtol * absolute(b))].  On
    an infinite or NaN [a] the comparison is false, and so is numpy's
    answer. *)
Definition isclose (a b rtol atol : float) : bool :=
  PrimFloat.abs (a - b) <=? atol + rtol * PrimFloat.abs b.

End Np.

(** ** Session state *)

Module Constituent.
Record t : Type := mk { E : float; nu : float; G : float; density : float }.
End Constituent.

Module Composite.
Record t : Type := mk {
  E1 : float;
  E2 : float;
  G12 : float;
  nu12 : float;
  nu21 : float;
  density : float;
  fiber_constituents : PyDict.t float;
  matrix_constituents : PyDict.t float
}.
End Composite.

(** [st.session_state.materials_db] *)
Record materials_db : Type := {
  fibers : PyDict.t Constituent.t;
  matrices : PyDict.t Constituent.t
}.

(** [st.session_state], without [laminate_layers]. *)
Record session_state : Type := {
  db : materials_db;
  composite_definitions : PyDict.t Composite.t
}.

Definition set_composite (name : string) (c : Composite.t) (s : session_state)
    : session_state :=
  {| db := db s;
     composite_definitions := PyDict.setitem (composite_definitions s) name c |}.

(** ** The rule-of-mixtures computation *)

Module Acc.
Record t : Type := mk {
  E1 : float;
  E2_denominator : float;
  G12_denominator : float;
  nu12 : float;
  density : float
}.

Definition init : t := mk 0.0 0.0 0.0 0.0 0.0.
End Acc.

(** One iteration of either loop. *)
Definition contribution (table : PyDict.t Constituent.t) (a : Acc.t)
    (item : string * float) : result Acc.t :=
  (let (name, vf) := item in
   c <- PyDict.getitem table name ;;
   let E1 := Acc.E1 a + Constituent.E c * vf in
   q <- truediv vf (Constituent.E c) ;;
   let E2_denominator := Acc.E2_denominator a + q in
   g <- truediv vf (Constituent.G c) ;;
   let G12_denominator := Acc.G12_denominator a + g in
   let nu12 := Acc.nu12 a + Constituent.nu c * vf in
   let density := Acc.density a + Constituent.density c * vf in
   Ok (Acc.mk E1 E2_denominator G12_denominator nu12 density))%py.

(** [for name, vf in selections.items(): ...] *)
Fixpoint contributions (table : PyDict.t Constituent.t)
    (items : list (string * float)) (a : Acc.t) : result Acc.t :=
  match items with
  | [] => Ok a
  | item :: rest =>
      (a' <- contribution table a item ;;
       contributions table rest a')%py
  end.

(** Lines "E1 = 0.0" to the construction of the stored dictionary. *)
Definition compute_composite (m : materials_db)
    (fiber_selections matrix_selections : PyDict.t float) : result Composite.t :=
  (a <- contributions (fibers m) (PyDict.items fiber_selections) Acc.init ;;
   a <- contributions (matrices m) (PyDict.items matrix_selections) a ;;
   E2 <- truediv 1 (Acc.E2_denominator a) ;;
   G12 <- truediv 1 (Acc.G12_denominator a) ;;
   nu21 <- truediv (Acc.nu12 a * E2) (Acc.E1 a) ;;
   Ok {| Composite.E1 := Acc.E1 a;
         Composite.E2 := E2;
         Composite.G12 := G12;
         Composite.nu12 := Acc.nu12 a;
         Composite.nu21 := nu21;
         Composite.density := Acc.density a;
         Composite.fiber_constituents := fiber_selections;
         Composite.matrix_constituents := matrix_selections |})%py.

(** ** A script run *)

(** What a run has done so far: the session state, the status elements
    on the page, and the keys of the volume-fraction inputs it has
    rendered.  The other widgets of the script have fixed keys, distinct
    from each other and from every [vf_] key; they are not tracked. *)
Record run : Type := mk_run {
  session : session_state;
  page : list St.element;
  keys : list string
}.

Definition script (A : Type) : Type := run -> result A * run.

Definition ret {A : Type} (a : A) : script A := fun r => (Ok a, r).

Definition bind {A B : Type} (c : script A) (k : A -> script B) : script B :=
  fun r =>
    match c r with
    | (Ok a, r') => k a r'
    | (Raise e, r') => (Raise e, r')
    end.

Definition get : script session_state := fun r => (Ok (session r), r).

Definition modify (f : session_state -> session_state) : script unit :=
  fun r => (Ok tt, mk_run (f (session r)) (page r) (keys r)).

Definition write (e : St.element) : script unit :=
  fun r => (Ok tt, mk_run (session r) (page r ++ [e]) (keys r)).

Definition lift {A : Type} (c : result A) : script A := fun r => (c, r).

(** A fresh run on session state [s]. *)
Definition start (s : session_state) : run := mk_run s [] [].

Declare Scope run_scope.
Delimit Scope run_scope with run.
Notation "x <- c ;; k" := (bind c (fun x => k))
  (at level 61, c at next level, right associativity) : run_scope.
Notation "c ;; k" := (bind c (fun _ => k))
  (at level 61, right associativity) : run_scope.

(** ** Widget inputs of one run *)

Record widgets : Type := {
  composite_name : string;
  vf_input : string -> float;    (* the value held by the number input of each key *)
  calculate : bool               (* st.button("Calculate Composite Properties") *)
}.

(** [f"vf_{name}"], the key of the volume-fraction input of a fiber and
    of a matrix alike. *)
Definition vf_key (name : string) : string := ("vf_" ++ name)%string.

(** [st.number_input(..., key=key)]: Streamlit refuses a key already
    used in the run. *)
Definition number_input (w : widgets) (key : string) : script float :=
  fun r =>
    if existsb (String.eqb key) (keys r)
    then (Raise (DuplicateWidgetID key), r)
    else (Ok (vf_input w key), mk_run (session r) (page r) (keys r ++ [key])).

(** Both volume-fraction inputs are declared with [min_value=0.0] and
    [max_value=1.0]. *)
Definition in_unit_interval (v : float) : bool := (0.0 <=? v) && (v <=? 1.0).

(** The number inputs hold values within their declared bounds. *)
Definition in_bounds (w : widgets) : Prop :=
  forall key, in_unit_interval (vf_input w key) = true.

(** ** The tab *)

(** A selection loop: one number input per registered constituent, in
    the order of the registry. *)
Fixpoint select (w : widgets) (items : list (string * Constituent.t))
    (selections : PyDict.t float) (total : float)
    : script (PyDict.t float * float) :=
  match items with
  | [] => ret (selections, total)
  | (name, props) :: rest =>
      (vf <- number_input w (vf_key name) ;;
       select w rest (PyDict.setitem selections name vf) (total + vf))%run
  end.

(** The volume-fraction balance check; the message, when there is one. *)
Definition check_balance (total_fiber_vf total_matrix_vf : float) : option string :=
  if negb (Np.isclose (total_fiber_vf + total_matrix_vf) 1.0 Np.default_rtol 0.01)
  then Some ("Total volume fractions must sum to 1.0 (current: "
             ++ format_2f (total_fiber_vf + total_matrix_vf) ++ ")")%string
  else None.

(** The tolerance of the check: [atol + rtol * absolute(b)] at
    [b = 1.0]. *)
Definition tolerance : float := 0.01 + Np.default_rtol * PrimFloat.abs 1.0.

(** The Calculate branch. *)
Definition calculate_composite (w : widgets)
    (fiber_selections matrix_selections : PyDict.t float)
    (vf_error : option string) : script unit :=
  if calculate w && not_ vf_error && str_truthy (composite_name w) then
    (s <- get ;;
     c <- lift (compute_composite (db s) fiber_selections matrix_selections) ;;
     modify (set_composite (composite_name w) c))%run
  else ret tt.

(** [with tab3:] *)
Definition tab3 (w : widgets) : script unit :=
  (s <- get ;;
   if negb (PyDict.truthy (fibers (db s))) || negb (PyDict.truthy (matrices (db s)))
   then write (St.warning "Please define at least one fiber and one matrix first")
   else
     fiber <- select w (PyDict.items (fibers (db s))) PyDict.empty 0.0 ;;
     matrix <- select w (PyDict.items (matrices (db s))) PyDict.empty 0.0 ;;
     let vf_error := check_balance (snd fiber) (snd matrix) in
     match vf_error with
     | Some msg => write (St.error msg)
     | None => ret tt
     end ;;
     calculate_composite w (fst fiber) (fst matrix) vf_error)%run.

(** ** The registry tabs and the main app logic *)

(** The inputs of the two registry forms. *)
Record forms : Type := {
  fiber_name : string;
  E_fiber : float;
  nu_fiber : float;
  G_fiber : float;
  density_fiber : float;
  add_fiber : bool;              (* st.button("Add Fiber") *)
  matrix_name : string;
  E_matrix : float;
  nu_matrix : float;
  G_matrix : float;
  density_matrix : float;
  add_matrix : bool              (* st.button("Add Matrix") *)
}.

Definition initial_session_state : session_state :=
  {| db := {| fibers := PyDict.empty; matrices := PyDict.empty |};
     composite_definitions := PyDict.empty |}.

Definition set_fiber (name : string) (c : Constituent.t) (s : session_state)
    : session_state :=
  {| db := {| fibers := PyDict.setitem (fibers (db s)) name c;
              matrices := matrices (db s) |};
     composite_definitions := composite_definitions s |}.

Definition set_matrix (name : string) (c : Constituent.t) (s : session_state)
    : session_state :=
  {| db := {| fibers := fibers (db s);
              matrices := PyDict.setitem (matrices (db s)) name c |};
     composite_definitions := composite_definitions s |}.

(** [with tab1:] the fiber form and the fiber table. *)
Definition tab1 (f : forms) : script unit :=
  ((if add_fiber f then
      if str_truthy (fiber_name f) then
        modify (set_fiber (fiber_name f)
                  (Constituent.mk (E_fiber f) (nu_fiber f) (G_fiber f)
                     (density_fiber f))) ;;
        write (St.success ("Added " ++ fiber_name f ++ " fiber to database")%string)
      else
        write (St.error "Please enter a fiber name")
    else ret tt) ;;
   s <- get ;;
   if PyDict.truthy (fibers (db s)) then ret tt
   else write (St.info "No fibers defined yet"))%run.

(** [with tab2:] the matrix form and the matrix table. *)
Definition tab2 (f : forms) : script unit :=
  ((if add_matrix f then
      if str_truthy (matrix_name f) then
        modify (set_matrix (matrix_name f)
                  (Constituent.mk (E_matrix f) (nu_matrix f) (G_matrix f)
                     (density_matrix f))) ;;
        write (St.success ("Added " ++ matrix_name f ++ " matrix to database")%string)
      else
        write (St.error "Please enter a matrix name")
    else ret tt) ;;
   s <- get ;;
   if PyDict.truthy (matrices (db s)) then ret tt
   else write (St.info "No matrices defined yet"))%run.

Definition material_properties_module (f : forms) (w : widgets) : script unit :=
  (tab1 f ;; tab2 f ;; tab3 w)%run.

(** [if app_mode == "Material Properties": ... elif ...] *)
Definition main (mode : app_mode) (f : forms) (w : widgets) : script unit :=
  match mode with
  | Material_Properties => material_properties_module f w
  | Single_Ply_Analysis
  | Laminate_Analysis
  | Failure_Prediction =>
      write (St.warning
        "Implementation note: This module would need to be updated to select from defined composites")
  end.

(** The session state one run of the script leaves, whether the run
    ends normally or raises: what the run has assigned stays assigned. *)
Definition next_session (mode : app_mode) (f : forms) (w : widgets)
    (s : session_state) : session_state :=
  session (snd (main mode f w (start s))).

(** The session states a session can be in: the initial one, and what a
    run of the script leaves from one of them, in any mode, with any
    inputs in the registry forms and volume fractions within their
    bounds. *)
Inductive reachable : session_state -> Prop :=
| reachable_initial : reachable initial_session_state
| reachable_run (mode : app_mode) (f : forms) (w : widgets) (s : session_state) :
    reachable s -> in_bounds w -> reachable (next_session mode f w s).

(** The session state after [tab1]. *)
Definition after_tab1 (f : forms) (s : session_state) : session_state :=
  if add_fiber f && str_truthy (fiber_name f)
  then set_fiber (fiber_name f)
         (Constituent.mk (E_fiber f) (nu_fiber f) (G_fiber f) (density_fiber f)) s
  else s.

(** The session state after [tab2]. *)
Definition after_tab2 (f : forms) (s : session_state) : session_state :=
  if add_matrix f && str_truthy (matrix_name f)
  then set_matrix (matrix_name f)
         (Constituent.mk (E_matrix f) (nu_matrix f) (G_matrix f) (density_matrix f)) s
  else s.

(** Run [r] with the elements [elements] already on the page. *)
Definition on_page (elements : list St.element) (r : run) : run :=
  mk_run (session r) (elements ++ page r) (keys r).

(** ** What the loops build *)

(** The assignment a selection loop builds from a registry table. *)
Definition selected (table : PyDict.t Constituent.t) (w : widgets)
    : PyDict.t float :=
  map (fun item : string * Constituent.t =>
         (fst item, vf_input w (vf_key (fst item)))) table.

(** The total a selection loop keeps. *)
Definition total (table : PyDict.t Constituent.t) (w : widgets) : float :=
  fold_left (fun t (item : string * Constituent.t) =>
               t + vf_input w (vf_key (fst item))) table 0.0.

(** The message of the balance check of a run. *)
Definition vf_error (w : widgets) (m : materials_db) : option string :=
  check_balance (total (fibers m) w) (total (matrices m) w).

(** The keys of the volume-fraction inputs of a registry table. *)
Definition vf_keys (table : PyDict.t Constituent.t) : list string :=
  map vf_key (PyDict.keys table).

(** The first matrix whose volume-fraction input would take a key a
    fiber's input already has: one that shares its name with a fiber. *)
Definition clash (m : materials_db) : option string :=
  find (fun name => existsb (String.eqb (vf_key name)) (vf_keys (fibers m)))
    (PyDict.keys (matrices m)).

(** Each mapping holds a name once, as a dictionary does. *)
Definition registry_wf (m : materials_db) : Prop :=
  PyDict.wf (fibers m) /\ PyDict.wf (matrices m).

(** The run after the balance check. *)
Definition after_check (vf_error : option string) (r : run) : run :=
  match vf_error with
  | Some msg => mk_run (session r) (page r ++ [St.error msg]) (keys r)
  | None => r
  end.

(** One iteration of the computation loops once the constituent is at
    hand and neither division fails. *)
Definition accumulate (a : Acc.t) (cv : Constituent.t * float) : Acc.t :=
  let (c, vf) := cv in
  Acc.mk (Acc.E1 a + Constituent.E c * vf)
         (Acc.E2_denominator a + vf / Constituent.E c)
         (Acc.G12_denominator a + vf / Constituent.G c)
         (Acc.nu12 a + Constituent.nu c * vf)
         (Acc.density a + Constituent.density c * vf).

(** ** The rule of mixtures as the specification words it *)

Module Spec.

(** The constituents an assignment selects from a registry mapping, with
    their fractions, in the order of the assignment. *)
Definition assigned (table : PyDict.t Constituent.t) (assignment : PyDict.t float)
    : list (Constituent.t * float) :=
  flat_map
    (fun item : string * float =>
       match PyDict.get table (fst item) with
       | Some c => [(c, snd item)]
       | None => []
       end)
    assignment.

(** The constituents a pair of assignments selects: fibers first, then
    matrices. *)
Definition selected_constituents (m : materials_db)
    (fiber_assignment matrix_assignment : PyDict.t float)
    : list (Constituent.t * float) :=
  (assigned (fibers m) fiber_assignment
   ++ assigned (matrices m) matrix_assignment)%list.

(** All registered fibers, then all registered matrices, each in
    registry insertion order, with the fractions entered for them. *)
Definition constituents (m : materials_db) (w : widgets)
    : list (Constituent.t * float) :=
  (map (fun item : string * Constituent.t =>
          (snd item, vf_input w (vf_key (fst item)))) (fibers m)
   ++ map (fun item : string * Constituent.t =>
             (snd item, vf_input w (vf_key (fst item)))) (matrices m))%list.

(** An assignment over registered names. *)
Definition over_registered (table : PyDict.t Constituent.t)
    (assignment : PyDict.t float) : Prop :=
  forall name, In name (PyDict.keys assignment) -> In name (PyDict.keys table).

(** Every selected constituent has E > 0 and G > 0. *)
Definition positive_moduli (cs : list (Constituent.t * float)) : Prop :=
  forall c V, In (c, V) cs ->
    (0.0 <? Constituent.E c) = true /\ (0.0 <? Constituent.G c) = true.

(** The sum over the constituents [i] of [term constituent_i V_i], taken
    from 0.0 and from the left, each addition rounded. *)
Definition sigma (term : Constituent.t -> float -> float)
    (cs : list (Constituent.t * float)) : float :=
  fold_left (fun acc cv => acc + term (fst cv) (snd cv)) cs 0.0.

Definition E1 cs := sigma (fun c V => Constituent.E c * V) cs.
Definition inv_E2 cs := sigma (fun c V => V / Constituent.E c) cs.
Definition E2 cs := 1 / inv_E2 cs.
Definition inv_G12 cs := sigma (fun c V => V / Constituent.G c) cs.
Definition G12 cs := 1 / inv_G12 cs.
Definition nu12 cs := sigma (fun c V => Constituent.nu c * V) cs.
Definition nu21 cs := nu12 cs * E2 cs / E1 cs.
Definition density cs := sigma (fun c V => Constituent.density c * V) cs.

(** The record the rule of mixtures gives for constituents [cs],
    keeping the two assignments it was derived from. *)
Definition rule_of_mixtures (cs : list (Constituent.t * float))
    (fiber_assignment matrix_assignment : PyDict.t float) : Composite.t :=
  {| Composite.E1 := E1 cs;
     Composite.E2 := E2 cs;
     Composite.G12 := G12 cs;
     Composite.nu12 := nu12 cs;
     Composite.nu21 := nu21 cs;
     Composite.density := density cs;
     Composite.fiber_constituents := fiber_assignment;
     Composite.matrix_constituents := matrix_assignment |}.

(** One of the three divisors of the formulas is zero. *)
Definition zero_divisor (cs : list (Constituent.t * float)) : bool :=
  is_zero (inv_E2 cs) || is_zero (inv_G12 cs) || is_zero (E1 cs).

(** The sum of the fractions of an assignment, from 0.0 and from the
    left. *)
Definition total (assignment : PyDict.t float) : float :=
  fold_left PrimFloat.add (PyDict.values assignment) 0.0.


End Spec.

(** ** Invariants of the session state *)

(** The two assignments have no name in common. *)
Definition disjoint_names (fiber_assignment matrix_assignment : PyDict.t float)
    : Prop :=
  forall name, In name (PyDict.keys matrix_assignment) ->
               ~ In name (PyDict.keys fiber_assignment).

(** A stored composite as the tab leaves it: a non-empty name;
    assignments that are not empty, hold each name once, have no name
    in common, name registered constituents only and hold fractions in
    [0, 1]; a total that passes the balance check. *)
Definition composite_wellformed (m : materials_db) (name : string)
    (c : Composite.t) : Prop :=
  name <> EmptyString /\
  Composite.fiber_constituents c <> [] /\
  Composite.matrix_constituents c <> [] /\
  PyDict.wf (Composite.fiber_constituents c) /\
  PyDict.wf (Composite.matrix_constituents c) /\
  disjoint_names (Composite.fiber_constituents c) (Composite.matrix_constituents c) /\
  Spec.over_registered (fibers m) (Composite.fiber_constituents c) /\
  Spec.over_registered (matrices m) (Composite.matrix_constituents c) /\
  (forall n v,
     In (n, v) (Composite.fiber_constituents c ++ Composite.matrix_constituents c)
     -> in_unit_interval v = true) /\
  check_balance (Spec.total (Composite.fiber_constituents c))
                (Spec.total (Composite.matrix_constituents c)) = None.

(** Each mapping of the session state holds a name once, and the
    composite definitions hold well-formed composites only. *)
Definition session_ok (s : session_state) : Prop :=
  registry_wf (db s) /\
  PyDict.wf (composite_definitions s) /\
  forall name c, In (name, c) (composite_definitions s) ->
    composite_wellformed (db s) name c.

(** ** Scenarios *)

Module Scenario.

Definition carbon : Constituent.t := Constituent.mk 230.0 0.2 90.0 1.8.
Definition epoxy : Constituent.t := Constituent.mk 3.5 0.35 1.3 1.2.

Definition registry : materials_db :=
  {| fibers := [("Carbon", carbon)]; matrices := [("Epoxy", epoxy)] |}%string.

Definition session : session_state :=
  {| db := registry; composite_definitions := PyDict.empty |}.

(** A composite name, the two volume fractions, and the Calculate button
    pressed or not. *)
Definition composite_form (name : string) (vf_carbon vf_epoxy : float)
    (pressed : bool) : widgets :=
  {| composite_name := name;
     vf_input := fun key => if String.eqb key "vf_Carbon" then vf_carbon else vf_epoxy;
     calculate := pressed |}.

(** A fiber and a matrix entered under one name. *)
Definition hybrid_session : session_state :=
  {| db := {| fibers := [("Hybrid", carbon)]; matrices := [("Hybrid", epoxy)] |}%string;
     composite_definitions := PyDict.empty |}.



End Scenario.

End F64.

(** * Properties *)

(** ** Dictionaries *)

Section DictFacts.

Context {V : Type}.
Implicit Types (d : PyDict.t V) (k : string) (v : V).

Lemma getitem_get d k :
  PyDict.getitem d k =
  match PyDict.get d k with
  | Some v => Ok v
  | None => Raise (KeyError k)
  end.
Proof.
  induction d as [|[k' v'] d IH]; simpl; [reflexivity|].
  destruct (String.eqb k' k); [reflexivity|exact IH].
Qed.

Lemma get_setitem_same d k v : PyDict.get (PyDict.setitem d k v) k = Some v.
Proof.
  induction d as [|[k' v'] d IH]; simpl.
  - now rewrite String.eqb_refl.
  - destruct (String.eqb k' k) eqn:Hk; simpl; rewrite Hk; [reflexivity|exact IH].
Qed.

Lemma get_setitem_other d k k' v :
  k' <> k -> PyDict.get (PyDict.setitem d k v) k' = PyDict.get d k'.
Proof.
  intros Hne. induction d as [|[k0 v0] d IH]; simpl.
  - destruct (String.eqb_spec k k'); [congruence|reflexivity].
  - destruct (String.eqb_spec k0 k) as [->|Hk]; simpl.
    + destruct (String.eqb_spec k k'); [congruence|reflexivity].
    + destruct (String.eqb k0 k'); [reflexivity|exact IH].
Qed.

Lemma get_None_iff d k : PyDict.get d k = None <-> ~ In k (PyDict.keys d).
Proof.
  induction d as [|[k' v'] d IH]; simpl; [tauto|].
  destruct (String.eqb_spec k' k) as [->|Hk].
  - split; [discriminate|tauto].
  - rewrite IH. tauto.
Qed.

Lemma get_In d k v : PyDict.wf d -> In (k, v) d -> PyDict.get d k = Some v.
Proof.
  unfold PyDict.wf.
  induction d as [|[k' v'] d IH]; simpl; intros Hwf Hin; [contradiction|].
  inversion Hwf as [|? ? Hnotin Hwf']; subst.
  destruct Hin as [Heq|Hin].
  - inversion Heq; subst. now rewrite String.eqb_refl.
  - destruct (String.eqb_spec k' k) as [->|Hk]; [|now apply IH].
    exfalso. apply Hnotin. change k with (fst (k, v)). now apply in_map.
Qed.

Lemma get_Some_In d k v : PyDict.get d k = Some v -> In (k, v) d.
Proof.
  induction d as [|[k' v'] d IH]; simpl; [discriminate|].
  destruct (String.eqb_spec k' k) as [->|Hk]; intros H.
  - inversion H; subst. now left.
  - right. now apply IH.
Qed.

(** Assigning to an absent key appends the item. *)
Lemma setitem_fresh d k v :
  ~ In k (PyDict.keys d) -> PyDict.setitem d k v = (d ++ [(k, v)])%list.
Proof.
  induction d as [|[k' v'] d IH]; simpl; intros Hnotin; [reflexivity|].
  destruct (String.eqb_spec k' k) as [->|Hk]; [tauto|].
  f_equal. apply IH. tauto.
Qed.

(** Assigning never changes the keys of a dictionary that has the key
    and adds the key last otherwise. *)
Lemma keys_setitem d k v :
  PyDict.keys (PyDict.setitem d k v) =
  match PyDict.get d k with
  | Some _ => PyDict.keys d
  | None => (PyDict.keys d ++ [k])%list
  end.
Proof.
  induction d as [|[k' v'] d IH]; simpl; [reflexivity|].
  destruct (String.eqb_spec k' k) as [->|Hk]; simpl; [reflexivity|].
  rewrite IH. now destruct (PyDict.get d k).
Qed.

Lemma wf_setitem d k v : PyDict.wf d -> PyDict.wf (PyDict.setitem d k v).
Proof.
  unfold PyDict.wf. intros Hwf. rewrite keys_setitem.
  destruct (PyDict.get d k) eqn:Hget; [exact Hwf|].
  apply get_None_iff in Hget.
  apply NoDup_app; [exact Hwf|constructor; [simpl; tauto|constructor]|].
  intros x Hx [<-|[]]. contradiction.
Qed.

(** Last write wins. *)
Lemma setitem_setitem d k v v' :
  PyDict.setitem (PyDict.setitem d k v) k v' = PyDict.setitem d k v'.
Proof.
  induction d as [|[k0 v0] d IH]; simpl.
  - now rewrite String.eqb_refl.
  - destruct (String.eqb k0 k) eqn:Hk; simpl; rewrite Hk; [reflexivity|].
    now rewrite IH.
Qed.

End DictFacts.

(** ** What the selection loop assigns *)

Lemma In_setitem {V : Type} (d : PyDict.t V) k v k' v' :
  In (k', v') (PyDict.setitem d k v) -> (k' = k /\ v' = v) \/ In (k', v') d.
Proof.
  induction d as [|[k0 v0] d IH]; simpl.
  - intros [H|[]]. inversion H. tauto.
  - destruct (String.eqb_spec k0 k) as [->|Hk]; simpl.
    + intros [H|H]; [inversion H; tauto|tauto].
    + intros [H|H]; [tauto|]. apply IH in H. tauto.
Qed.

Lemma in_keys_get {V : Type} (d : PyDict.t V) k :
  In k (PyDict.keys d) -> exists v, PyDict.get d k = Some v.
Proof.
  intros Hin. destruct (PyDict.get d k) as [v|] eqn:Hget; [now exists v|].
  apply get_None_iff in Hget. contradiction.
Qed.

(** ** The computation loops *)

Lemma truediv_ok (a b : Q) : ~ b == 0 -> truediv a b = Ok (a / b).
Proof.
  intros Hb. unfold truediv.
  destruct (Qeq_bool b 0) eqn:Heq; [|reflexivity].
  apply Qeq_bool_iff in Heq. contradiction.
Qed.


Lemma contribution_ok table a name vf c :
  PyDict.get table name = Some c ->
  ~ Constituent.E c == 0 -> ~ Constituent.G c == 0 ->
  contribution table a (name, vf) = Ok (accumulate a (c, vf)).
Proof.
  intros Hget HE HG. unfold contribution.
  rewrite getitem_get, Hget. simpl.
  rewrite (truediv_ok _ _ HE). simpl.
  rewrite (truediv_ok _ _ HG). reflexivity.
Qed.

Section AccumulateFields.

Variable cs : list (Constituent.t * Q).

Lemma accumulate_E1 a :
  Acc.E1 (fold_left accumulate cs a) =
  fold_left (fun acc cv => acc + Constituent.E (fst cv) * snd cv) cs (Acc.E1 a).
Proof.
  revert a. induction cs as [|[c v] l IH]; intros a; simpl; [reflexivity|].
  now rewrite IH.
Qed.

Lemma accumulate_E2_denominator a :
  Acc.E2_denominator (fold_left accumulate cs a) =
  fold_left (fun acc cv => acc + snd cv / Constituent.E (fst cv)) cs
    (Acc.E2_denominator a).
Proof.
  revert a. induction cs as [|[c v] l IH]; intros a; simpl; [reflexivity|].
  now rewrite IH.
Qed.

Lemma accumulate_G12_denominator a :
  Acc.G12_denominator (fold_left accumulate cs a) =
  fold_left (fun acc cv => acc + snd cv / Constituent.G (fst cv)) cs
    (Acc.G12_denominator a).
Proof.
  revert a. induction cs as [|[c v] l IH]; intros a; simpl; [reflexivity|].
  now rewrite IH.
Qed.

Lemma accumulate_nu12 a :
  Acc.nu12 (fold_left accumulate cs a) =
  fold_left (fun acc cv => acc + Constituent.nu (fst cv) * snd cv) cs (Acc.nu12 a).
Proof.
  revert a. induction cs as [|[c v] l IH]; intros a; simpl; [reflexivity|].
  now rewrite IH.
Qed.

Lemma accumulate_density a :
  Acc.density (fold_left accumulate cs a) =
  fold_left (fun acc cv => acc + Constituent.density (fst cv) * snd cv) cs
    (Acc.density a).
Proof.
  revert a. induction cs as [|[c v] l IH]; intros a; simpl; [reflexivity|].
  now rewrite IH.
Qed.

End AccumulateFields.

(** The accumulators after both loops are the five sums of the
    specification over fibers then matrices. *)
Lemma accumulate_sums (cs : list (Constituent.t * Q)) :
  fold_left accumulate cs Acc.init =
  Acc.mk (Spec.E1 cs) (Spec.inv_E2 cs) (Spec.inv_G12 cs) (Spec.nu12 cs)
         (Spec.density cs).
Proof.
  pose proof (accumulate_E1 cs Acc.init) as H1.
  pose proof (accumulate_E2_denominator cs Acc.init) as H2.
  pose proof (accumulate_G12_denominator cs Acc.init) as H3.
  pose proof (accumulate_nu12 cs Acc.init) as H4.
  pose proof (accumulate_density cs Acc.init) as H5.
  destruct (fold_left accumulate cs Acc.init); simpl in *.
  now subst.
Qed.

(** The loop over any assignment whose names are registered with
    non-zero moduli folds [accumulate] over what the assignment selects. *)
Lemma contributions_assigned table (assignment : PyDict.t Q) :
  nonzero_moduli table ->
  Spec.over_registered table assignment ->
  forall a,
    contributions table assignment a =
    Ok (fold_left accumulate (Spec.assigned table assignment) a).
Proof.
  intros Hnz.
  induction assignment as [|[name vf] rest IH]; intros Hreg a; [reflexivity|].
  destruct (in_keys_get table name) as [c Hget].
  { apply Hreg. now left. }
  destruct (Hnz name c (get_Some_In _ _ _ Hget)) as [HE HG].
  cbn [contributions Spec.assigned flat_map fst snd]. rewrite Hget.
  rewrite (contribution_ok _ _ _ _ _ Hget HE HG).
  cbn [Py.bind app fold_left].
  apply IH. intros n Hn. apply Hreg. now right.
Qed.

(** What the computation returns on any pair of assignments over
    registered names, the moduli being non-zero: the three final
    divisions applied to the sums over the selected constituents. *)
Lemma compute_composite_assigned (m : materials_db) (fsel msel : PyDict.t Q) :
  nonzero_moduli (fibers m) -> nonzero_moduli (matrices m) ->
  Spec.over_registered (fibers m) fsel ->
  Spec.over_registered (matrices m) msel ->
  let cs := Spec.selected_constituents m fsel msel in
  compute_composite m fsel msel =
  (E2 <- truediv 1 (Spec.inv_E2 cs) ;;
   G12 <- truediv 1 (Spec.inv_G12 cs) ;;
   nu21 <- truediv (Spec.nu12 cs * E2) (Spec.E1 cs) ;;
   Ok {| Composite.E1 := Spec.E1 cs;
         Composite.E2 := E2;
         Composite.G12 := G12;
         Composite.nu12 := Spec.nu12 cs;
         Composite.nu21 := nu21;
         Composite.density := Spec.density cs;
         Composite.fiber_constituents := fsel;
         Composite.matrix_constituents := msel |})%py.
Proof.
  intros Hnf Hnm Hrf Hrm cs. unfold compute_composite, PyDict.items.
  rewrite (contributions_assigned _ _ Hnf Hrf). cbn [Py.bind].
  rewrite (contributions_assigned _ _ Hnm Hrm). cbn [Py.bind].
  rewrite <- fold_left_app.
  change (fold_left accumulate _ Acc.init) with (fold_left accumulate cs Acc.init).
  rewrite accumulate_sums. reflexivity.
Qed.

(** ** Sums of non-negative terms *)

Section Sums.

Context {A : Type}.
Variable f : A -> Q.

Lemma sum_from_shift l a : sum_from f l a == a + sum_from f l 0.
Proof.
  unfold sum_from. revert a.
  induction l as [|x l IH]; intros a; simpl; [lra|].
  rewrite (IH (a + f x)), (IH (0 + f x)). lra.
Qed.

Lemma sum_from_ge l a :
  (forall x, In x l -> 0 <= f x) -> a <= sum_from f l a.
Proof.
  unfold sum_from. revert a.
  induction l as [|x l IH]; intros a Hf; simpl; [lra|].
  assert (0 <= f x) by (apply Hf; now left).
  assert (a + f x <= fold_left (fun acc x => acc + f x) l (a + f x))
    by (apply IH; intros y Hy; apply Hf; now right).
  lra.
Qed.

Lemma sum_from_gt l a :
  (forall x, In x l -> 0 <= f x) ->
  (exists x, In x l /\ 0 < f x) -> a < sum_from f l a.
Proof.
  unfold sum_from. revert a.
  induction l as [|x l IH]; intros a Hf [y [Hin Hy]]; simpl; [contradiction|].
  assert (0 <= f x) by (apply Hf; now left).
  assert (Htail : forall z, In z l -> 0 <= f z) by (intros z Hz; apply Hf; now right).
  destruct Hin as [->|Hin].
  - pose proof (sum_from_ge l (a + f y) Htail) as Hge. unfold sum_from in Hge. lra.
  - assert (a + f x < fold_left (fun acc x => acc + f x) l (a + f x))
      by (apply IH; [exact Htail|now exists y]).
    lra.
Qed.

End Sums.

(** ** Positivity of the sums *)

Lemma div_nonneg (v e : Q) : 0 <= v -> 0 < e -> 0 <= v / e.
Proof.
  intros Hv He. apply Qle_shift_div_l; [exact He|]. lra.
Qed.

Lemma div_pos (v e : Q) : 0 < v -> 0 < e -> 0 < v / e.
Proof.
  intros Hv He. apply Qlt_shift_div_l; [exact He|]. lra.
Qed.

Lemma sigma_positive (term : Constituent.t -> Q -> Q) cs :
  (forall cv, In cv cs -> 0 <= term (fst cv) (snd cv)) ->
  (exists cv, In cv cs /\ 0 < term (fst cv) (snd cv)) ->
  0 < Spec.sigma term cs.
Proof.
  intros Hnn Hex.
  pose proof (sum_from_gt (fun cv => term (fst cv) (snd cv)) cs 0.0 Hnn Hex) as H.
  unfold sum_from in H. unfold Spec.sigma.
  assert (0.0 == 0) by reflexivity. lra.
Qed.

(** With positive moduli, non-negative fractions and one positive
    fraction, the longitudinal modulus and both denominators are
    positive. *)
Lemma sums_positive cs :
  (forall cv, In cv cs ->
     0 < Constituent.E (fst cv) /\ 0 < Constituent.G (fst cv) /\ 0 <= snd cv) ->
  (exists cv, In cv cs /\ 0 < snd cv) ->
  0 < Spec.E1 cs /\ 0 < Spec.inv_E2 cs /\ 0 < Spec.inv_G12 cs.
Proof.
  intros Hadm [cv [Hin Hpos]].
  destruct (Hadm cv Hin) as (HE & HG & _).
  repeat split; apply sigma_positive.
  - intros x Hx. destruct (Hadm x Hx) as (? & ? & ?). apply Qmult_le_0_compat; lra.
  - exists cv. split; [exact Hin|]. apply Qmult_lt_0_compat; lra.
  - intros x Hx. destruct (Hadm x Hx) as (? & ? & ?). now apply div_nonneg.
  - exists cv. split; [exact Hin|]. now apply div_pos.
  - intros x Hx. destruct (Hadm x Hx) as (? & ? & ?). now apply div_nonneg.
  - exists cv. split; [exact Hin|]. now apply div_pos.
Qed.

(** ** The sums over a registry *)

Section Registry.

Variable m : materials_db.
Variables fvf mvf : string -> Q.

Let cs := Spec.constituents m fvf mvf.
Let total_fiber_vf := snd (select (fibers m) fvf).
Let total_matrix_vf := snd (select (matrices m) mvf).

Hypothesis wf_fibers : PyDict.wf (fibers m).
Hypothesis wf_matrices : PyDict.wf (matrices m).

Lemma in_constituents cv :
  In cv cs <->
  (exists item, In item (fibers m) /\ cv = (snd item, fvf (fst item))) \/
  (exists item, In item (matrices m) /\ cv = (snd item, mvf (fst item))).
Proof.
  unfold cs, Spec.constituents. rewrite in_app_iff, !in_map_iff.
  split; (intros [[item [H1 H2]]|[item [H1 H2]]];
          [left|right]; exists item; split; congruence).
Qed.

Hypothesis range_fibers : fractions_in_range (fibers m) fvf.
Hypothesis range_matrices : fractions_in_range (matrices m) mvf.

Lemma fiber_fraction_nonneg item : In item (fibers m) -> 0 <= fvf (fst item).
Proof.
  intros Hin. destruct (range_fibers (fst item)) as [H _].
  - unfold PyDict.keys. now apply in_map.
  - assert (0.0 == 0) by reflexivity. lra.
Qed.

Lemma matrix_fraction_nonneg item : In item (matrices m) -> 0 <= mvf (fst item).
Proof.
  intros Hin. destruct (range_matrices (fst item)) as [H _].
  - unfold PyDict.keys. now apply in_map.
  - assert (0.0 == 0) by reflexivity. lra.
Qed.

Lemma constituent_fraction_nonneg cv : In cv cs -> 0 <= snd cv.
Proof.
  intros Hin. apply in_constituents in Hin.
  destruct Hin as [[item [Hin ->]]|[item [Hin ->]]]; simpl.
  - now apply fiber_fraction_nonneg.
  - now apply matrix_fraction_nonneg.
Qed.

Hypothesis positive_fibers : positive_moduli (fibers m).
Hypothesis positive_matrices : positive_moduli (matrices m).

Lemma constituent_admissible cv :
  In cv cs ->
  0 < Constituent.E (fst cv) /\ 0 < Constituent.G (fst cv) /\ 0 <= snd cv.
Proof.
  intros Hin. pose proof (constituent_fraction_nonneg cv Hin) as Hnn.
  apply in_constituents in Hin.
  destruct Hin as [[[name c] [Hin ->]]|[[name c] [Hin ->]]]; simpl in *.
  - destruct (positive_fibers name c Hin). tauto.
  - destruct (positive_matrices name c Hin). tauto.
Qed.

Lemma registry_nonzero_moduli :
  nonzero_moduli (fibers m) /\ nonzero_moduli (matrices m).
Proof.
  split; intros name c Hin.
  - destruct (positive_fibers name c Hin). split; lra.
  - destruct (positive_matrices name c Hin). split; lra.
Qed.

(** A zero denominator means every fraction is zero. *)
Lemma zero_denominator_zero_fractions :
  Spec.inv_E2 cs == 0 \/ Spec.inv_G12 cs == 0 ->
  forall cv, In cv cs -> snd cv == 0.
Proof.
  intros Hzero cv Hin.
  destruct (Qlt_le_dec 0 (snd cv)) as [Hpos|Hle].
  - destruct (sums_positive cs constituent_admissible) as (_ & H2 & H3);
      [now exists cv|]. lra.
  - pose proof (constituent_fraction_nonneg cv Hin). lra.
Qed.

End Registry.

(** ** Runs of the tabs *)

Lemma truthy_setitem {V : Type} (d : PyDict.t V) k v :
  PyDict.truthy (PyDict.setitem d k v) = true.
Proof.
  destruct d as [|[k' v'] d]; simpl; [reflexivity|].
  now destruct (String.eqb k' k).
Qed.

Lemma setitem_upserted {V : Type} (d : PyDict.t V) k v :
  Spec.upserted d (PyDict.setitem d k v) k v.
Proof.
  repeat split.
  - apply get_setitem_same.
  - intros other Hne. now apply get_setitem_other.
  - apply keys_setitem.
Qed.

Lemma tab1_added (w : widgets) (r : St.run) :
  add_fiber w = true -> fiber_name w <> EmptyString ->
  tab1 w r =
  (Ok tt,
   St.mk (set_fiber (fiber_name w)
            (Constituent.mk (E_fiber w) (nu_fiber w) (G_fiber w) (density_fiber w))
            (St.session r))
         (St.page r ++ [St.success ("Added " ++ fiber_name w ++ " fiber to database")])).
Proof.
  intros Hadd Hname. unfold tab1. rewrite Hadd.
  destruct (fiber_name w) as [|ch name] eqn:Hn; [congruence|].
  cbn -[String.append PyDict.setitem]. now rewrite truthy_setitem.
Qed.

Lemma tab1_rejected (w : widgets) (r : St.run) :
  add_fiber w = true -> fiber_name w = EmptyString ->
  tab1 w r =
  (Ok tt,
   St.mk (St.session r)
         ((St.page r ++ [St.error "Please enter a fiber name"])
          ++ (if PyDict.truthy (fibers (db (St.session r))) then []
              else [St.info "No fibers defined yet"]))).
Proof.
  intros Hadd Hname. unfold tab1. rewrite Hadd, Hname.
  cbn. destruct (PyDict.truthy (fibers (db (St.session r)))); cbn.
  - now rewrite app_nil_r.
  - reflexivity.
Qed.

Lemma tab2_added (w : widgets) (r : St.run) :
  add_matrix w = true -> matrix_name w <> EmptyString ->
  tab2 w r =
  (Ok tt,
   St.mk (set_matrix (matrix_name w)
            (Constituent.mk (E_matrix w) (nu_matrix w) (G_matrix w) (density_matrix w))
            (St.session r))
         (St.page r ++ [St.success ("Added " ++ matrix_name w ++ " matrix to database")])).
Proof.
  intros Hadd Hname. unfold tab2. rewrite Hadd.
  destruct (matrix_name w) as [|ch name] eqn:Hn; [congruence|].
  cbn -[String.append PyDict.setitem]. now rewrite truthy_setitem.
Qed.

Lemma tab2_rejected (w : widgets) (r : St.run) :
  add_matrix w = true -> matrix_name w = EmptyString ->
  tab2 w r =
  (Ok tt,
   St.mk (St.session r)
         ((St.page r ++ [St.error "Please enter a matrix name"])
          ++ (if PyDict.truthy (matrices (db (St.session r))) then []
              else [St.info "No matrices defined yet"]))).
Proof.
  intros Hadd Hname. unfold tab2. rewrite Hadd, Hname.
  cbn. destruct (PyDict.truthy (matrices (db (St.session r)))); cbn.
  - now rewrite app_nil_r.
  - reflexivity.
Qed.

(** The Calculate branch, run: either nothing happens, or the
    computation raises and nothing is stored, or its record is stored. *)
Lemma calculate_composite_run (w : widgets) fsel msel vf_error (r : St.run) :
  calculate_composite w fsel msel vf_error r =
  if calculate w && not_ vf_error && str_truthy (composite_name w) then
    match compute_composite (db (St.session r)) fsel msel with
    | Ok c => (Ok tt, St.mk (set_composite (composite_name w) c (St.session r))
                            (St.page r))
    | Raise e => (Raise e, r)
    end
  else (Ok tt, r).
Proof.
  unfold calculate_composite.
  destruct (calculate w && not_ vf_error && str_truthy (composite_name w));
    [|reflexivity].
  unfold St.bind, St.get, St.lift, St.modify.
  now destruct (compute_composite (db (St.session r)) fsel msel).
Qed.

Lemma tab3_run (w : widgets) (r : St.run) :
  let s := St.session r in
  let fsel := select (fibers (db s)) (fiber_vf w) in
  let msel := select (matrices (db s)) (matrix_vf w) in
  let vf_error := check_balance (snd fsel) (snd msel) in
  tab3 w r =
  if negb (PyDict.truthy (fibers (db s))) || negb (PyDict.truthy (matrices (db s)))
  then (Ok tt,
        St.mk s (St.page r ++
                 [St.warning "Please define at least one fiber and one matrix first"]))
  else calculate_composite w (fst fsel) (fst msel) vf_error (after_check vf_error r).
Proof.
  intros s fsel msel vf_error. unfold tab3.
  unfold St.bind at 1. unfold St.get at 1. cbv beta iota.
  fold s.
  destruct (negb (PyDict.truthy (fibers (db s))) || negb (PyDict.truthy (matrices (db s))));
    [reflexivity|].
  fold fsel msel. destruct fsel as [fs tf] eqn:Hf, msel as [ms tm] eqn:Hm.
  subst vf_error. simpl fst. simpl snd.
  unfold St.bind, after_check.
  now destruct (check_balance tf tm).
Qed.

Lemma after_check_session vf_error r :
  St.session (after_check vf_error r) = St.session r.
Proof. now destruct vf_error. Qed.

(** ** Reachable session states *)

Lemma tab1_session (w : widgets) (r : St.run) :
  fst (tab1 w r) = Ok tt /\
  St.session (snd (tab1 w r)) =
  if add_fiber w && str_truthy (fiber_name w)
  then set_fiber (fiber_name w)
         (Constituent.mk (E_fiber w) (nu_fiber w) (G_fiber w) (density_fiber w))
         (St.session r)
  else St.session r.
Proof.
  destruct (add_fiber w) eqn:Hadd.
  - destruct (string_dec (fiber_name w) EmptyString) as [Hname|Hname].
    + rewrite (tab1_rejected w r Hadd Hname), Hname. now split.
    + rewrite (tab1_added w r Hadd Hname).
      destruct (fiber_name w); [congruence|now split].
  - unfold tab1. rewrite Hadd. cbn.
    now destruct (PyDict.truthy (fibers (db (St.session r)))).
Qed.

Lemma tab2_session (w : widgets) (r : St.run) :
  fst (tab2 w r) = Ok tt /\
  St.session (snd (tab2 w r)) =
  if add_matrix w && str_truthy (matrix_name w)
  then set_matrix (matrix_name w)
         (Constituent.mk (E_matrix w) (nu_matrix w) (G_matrix w) (density_matrix w))
         (St.session r)
  else St.session r.
Proof.
  destruct (add_matrix w) eqn:Hadd.
  - destruct (string_dec (matrix_name w) EmptyString) as [Hname|Hname].
    + rewrite (tab2_rejected w r Hadd Hname), Hname. now split.
    + rewrite (tab2_added w r Hadd Hname).
      destruct (matrix_name w); [congruence|now split].
  - unfold tab2. rewrite Hadd. cbn.
    now destruct (PyDict.truthy (matrices (db (St.session r)))).
Qed.

(** ** The scenario registry *)

Lemma scenario_positive_moduli :
  positive_moduli (fibers Scenario.registry) /\
  positive_moduli (matrices Scenario.registry).
Proof.
  split; intros name c [H|[]]; inversion H; subst; split; reflexivity.
Qed.

(** ** The tab on binary64 floats: the selection loops *)

Lemma vf_key_inj a b : F64.vf_key a = F64.vf_key b -> a = b.
Proof. unfold F64.vf_key. simpl. intros H. now inversion H. Qed.

Lemma existsb_eqb_In key l : existsb (String.eqb key) l = true <-> In key l.
Proof.
  rewrite existsb_exists. split.
  - intros [x [Hin Heq]]. apply String.eqb_eq in Heq. now subst.
  - intros Hin. exists key. split; [exact Hin|apply String.eqb_refl].
Qed.

Lemma existsb_eqb_fresh key l : ~ In key l -> existsb (String.eqb key) l = false.
Proof.
  intros Hnotin. destruct (existsb (String.eqb key) l) eqn:He; [|reflexivity].
  apply existsb_eqb_In in He. contradiction.
Qed.

Lemma number_input_fresh w key r :
  ~ In key (F64.keys r) ->
  F64.number_input w key r =
  (Ok (F64.vf_input w key),
   F64.mk_run (F64.session r) (F64.page r) (F64.keys r ++ [key])).
Proof.
  intros Hfresh. unfold F64.number_input.
  now rewrite (existsb_eqb_fresh _ _ Hfresh).
Qed.

Lemma number_input_used w key r :
  In key (F64.keys r) ->
  F64.number_input w key r = (Raise (DuplicateWidgetID key), r).
Proof.
  intros Hin. unfold F64.number_input.
  apply existsb_eqb_In in Hin. now rewrite Hin.
Qed.

(** A number input changes neither the session state nor the page. *)
Lemma number_input_keeps w key r :
  F64.session (snd (F64.number_input w key r)) = F64.session r /\
  F64.page (snd (F64.number_input w key r)) = F64.page r.
Proof.
  unfold F64.number_input.
  destruct (existsb (String.eqb key) (F64.keys r)); split; reflexivity.
Qed.

(** Neither does a selection loop, whether it ends or raises. *)
Lemma select_keeps w items : forall sel tot r,
  F64.session (snd (F64.select w items sel tot r)) = F64.session r /\
  F64.page (snd (F64.select w items sel tot r)) = F64.page r.
Proof.
  induction items as [|[name c] items IH]; intros sel tot r.
  - split; reflexivity.
  - cbn [F64.select]. unfold F64.bind.
    pose proof (number_input_keeps w (F64.vf_key name) r) as Hkeep.
    destruct (F64.number_input w (F64.vf_key name) r) as [[vf|e] r1];
      cbn [snd] in Hkeep.
    + destruct (IH (PyDict.setitem sel name vf) (tot + vf)%float r1) as [Hs Hp].
      destruct Hkeep as [Hs1 Hp1]. split; congruence.
    + exact Hkeep.
Qed.

(** On names the run has no input for yet, the loop assigns every name
    of the table, in order, totals the fractions from the left and
    registers one key per name. *)
Lemma select_ok w items : forall sel tot r,
  NoDup (PyDict.keys sel ++ PyDict.keys items) ->
  (forall name, In name (PyDict.keys items) -> ~ In (F64.vf_key name) (F64.keys r)) ->
  F64.select w items sel tot r =
  (Ok ((sel ++ F64.selected items w)%list,
       fold_left (fun t (item : string * F64.Constituent.t) =>
                    (t + F64.vf_input w (F64.vf_key (fst item)))%float) items tot),
   F64.mk_run (F64.session r) (F64.page r) (F64.keys r ++ F64.vf_keys items)).
Proof.
  induction items as [|[name c] items IH]; intros sel tot r Hnd Hfresh.
  - cbn. unfold F64.ret, F64.vf_keys. cbn. rewrite !app_nil_r. now destruct r.
  - cbn [F64.select]. unfold F64.bind.
    rewrite number_input_fresh by (apply Hfresh; now left).
    assert (Hname : ~ In name (PyDict.keys sel ++ PyDict.keys items)).
    { apply NoDup_remove_2 in Hnd. exact Hnd. }
    rewrite setitem_fresh
      by (intros Hin; apply Hname; apply in_or_app; now left).
    rewrite IH.
    + cbn [F64.session F64.page F64.keys]. unfold F64.vf_keys. cbn.
      now rewrite <- !app_assoc.
    + unfold PyDict.keys in *. rewrite map_app, <- app_assoc. exact Hnd.
    + cbn [F64.keys]. intros name' Hin' Hused.
      apply in_app_or in Hused. destruct Hused as [Hused|[Heq|[]]].
      * apply (Hfresh name'); [now right|exact Hused].
      * apply vf_key_inj in Heq. subst name'.
        apply Hname. apply in_or_app. now right.
Qed.

Lemma find_ext_in {A : Type} (f g : A -> bool) (l : list A) :
  (forall x, In x l -> f x = g x) -> find f l = find g l.
Proof.
  induction l as [|x l IH]; intros Hext; simpl; [reflexivity|].
  rewrite (Hext x) by now left.
  destruct (g x); [reflexivity|].
  apply IH. intros y Hy. apply Hext. now right.
Qed.

(** The loop raises at the first name whose key the run has used. *)
Lemma select_clash w items : forall sel tot r name,
  NoDup (PyDict.keys items) ->
  find (fun n => existsb (String.eqb (F64.vf_key n)) (F64.keys r)) (PyDict.keys items)
  = Some name ->
  exists used,
    F64.select w items sel tot r =
    (Raise (DuplicateWidgetID (F64.vf_key name)),
     F64.mk_run (F64.session r) (F64.page r) used).
Proof.
  induction items as [|[n c] items IH]; intros sel tot r name Hnd Hfind.
  - discriminate.
  - unfold PyDict.keys in Hfind, Hnd. cbn [map fst find] in Hfind, Hnd.
    fold (PyDict.keys items) in Hfind, Hnd.
    cbn [F64.select]. unfold F64.bind.
    inversion Hnd as [|? ? Hn Hnd']; subst.
    destruct (existsb (String.eqb (F64.vf_key n)) (F64.keys r)) eqn:Hused.
    + injection Hfind as <-.
      rewrite number_input_used by now apply existsb_eqb_In.
      exists (F64.keys r). now destruct r.
    + rewrite number_input_fresh.
      2:{ intros Hin. apply existsb_eqb_In in Hin. congruence. }
      destruct (IH (PyDict.setitem sel n (F64.vf_input w (F64.vf_key n)))
                  (tot + F64.vf_input w (F64.vf_key n))%float
                  (F64.mk_run (F64.session r) (F64.page r)
                     (F64.keys r ++ [F64.vf_key n])) name Hnd')
        as [used Hrun].
      * rewrite <- Hfind. apply find_ext_in. intros x Hx. cbn [F64.keys].
        rewrite existsb_app. cbn [existsb].
        destruct (String.eqb_spec (F64.vf_key x) (F64.vf_key n)) as [Heq|_].
        -- apply vf_key_inj in Heq. subst x. contradiction.
        -- now rewrite !orb_false_r.
      * exists used. exact Hrun.
Qed.

(** The loops read the number inputs only. *)
Lemma select_ext w w' items : forall sel tot r,
  F64.vf_input w' = F64.vf_input w ->
  F64.select w' items sel tot r = F64.select w items sel tot r.
Proof.
  induction items as [|[n c] items IH]; intros sel tot r Hvf; [reflexivity|].
  cbn [F64.select]. unfold F64.bind, F64.number_input. rewrite Hvf.
  destruct (existsb (String.eqb (F64.vf_key n)) (F64.keys r)); [reflexivity|].
  now apply IH.
Qed.

Lemma keys_selected_f64 table w :
  PyDict.keys (F64.selected table w) = PyDict.keys table.
Proof.
  unfold F64.selected, PyDict.keys. rewrite map_map. now apply map_ext.
Qed.

Lemma in_selected_f64 table w name v :
  In (name, v) (F64.selected table w) ->
  In name (PyDict.keys table) /\ v = F64.vf_input w (F64.vf_key name).
Proof.
  unfold F64.selected. intros Hin. apply in_map_iff in Hin.
  destruct Hin as [[n c] [Heq Hin]]. cbn [fst] in Heq. injection Heq as <- <-.
  split; [|reflexivity].
  unfold PyDict.keys. change n with (fst (n, c)). now apply in_map.
Qed.

(** The total the loop keeps is the sum of the assignment it builds. *)
Lemma total_selected_f64 table w :
  F64.total table w = F64.Spec.total (F64.selected table w).
Proof.
  unfold F64.total, F64.Spec.total, F64.selected, PyDict.values.
  generalize 0.0%float.
  induction table as [|item table IH]; intros t; simpl; [reflexivity|].
  apply IH.
Qed.

(** No key of a fiber input is the key of a matrix input exactly when
    no matrix shares its name with a fiber. *)
Lemma clash_None (m : F64.materials_db) :
  F64.clash m = None <->
  forall name, In name (PyDict.keys (F64.matrices m)) ->
               ~ In name (PyDict.keys (F64.fibers m)).
Proof.
  unfold F64.clash. split.
  - intros Hnone name Hm Hf.
    apply (find_none _ _ Hnone) in Hm.
    assert (Hin : In (F64.vf_key name) (F64.vf_keys (F64.fibers m)))
      by (unfold F64.vf_keys; now apply in_map).
    apply existsb_eqb_In in Hin. congruence.
  - intros Hdistinct.
    destruct (find _ _) as [name|] eqn:Hfind; [|reflexivity].
    apply find_some in Hfind. destruct Hfind as [Hm Hused].
    apply existsb_eqb_In in Hused. unfold F64.vf_keys in Hused.
    apply in_map_iff in Hused. destruct Hused as [n [Heq Hn]].
    apply vf_key_inj in Heq. subst n. now apply Hdistinct in Hm.
Qed.

Lemma clash_Some (m : F64.materials_db) name :
  F64.clash m = Some name ->
  In name (PyDict.keys (F64.matrices m)) /\ In name (PyDict.keys (F64.fibers m)).
Proof.
  unfold F64.clash. intros Hfind. apply find_some in Hfind.
  destruct Hfind as [Hm Hused]. split; [exact Hm|].
  apply existsb_eqb_In in Hused. unfold F64.vf_keys in Hused.
  apply in_map_iff in Hused. destruct Hused as [n [Heq Hn]].
  apply vf_key_inj in Heq. now subst n.
Qed.

(** ** The tab on binary64 floats: the computation *)

(** A float that compares equal to zero is one of the two zeros. *)
Lemma is_zero_cases (x : float) :
  F64.is_zero x = true -> x = 0%float \/ x = (-0)%float.
Proof.
  unfold F64.is_zero. rewrite FloatAxioms.eqb_spec. intros H.
  rewrite <- (SF2Prim_Prim2SF x).
  destruct (Prim2SF x) as [s|s| |s m e]; try discriminate.
  - destruct s; [right|left]; reflexivity.
  - destruct s; discriminate.
  - destruct s; discriminate.
Qed.

Lemma positive_nonzero (x : float) :
  (0 <? x)%float = true -> F64.is_zero x = false.
Proof.
  unfold F64.is_zero. rewrite ltb_spec, FloatAxioms.eqb_spec.
  destruct (Prim2SF x) as [s|s| |s m e]; try discriminate;
    destruct s; try discriminate; reflexivity.
Qed.

(** Adding a zero to the positive zero leaves it. *)
Lemma add_zero (x : float) : F64.is_zero x = true -> (0 + x)%float = 0%float.
Proof.
  intros H. destruct (is_zero_cases x H) as [-> | ->]; reflexivity.
Qed.

Lemma truediv_nonzero (a b : float) :
  F64.is_zero b = false -> F64.truediv a b = Ok (a / b)%float.
Proof. unfold F64.truediv. now intros ->. Qed.

Lemma contribution_accumulates table a name vf c :
  PyDict.get table name = Some c ->
  F64.is_zero (F64.Constituent.E c) = false ->
  F64.is_zero (F64.Constituent.G c) = false ->
  F64.contribution table a (name, vf) = Ok (F64.accumulate a (c, vf)).
Proof.
  intros Hget HE HG. unfold F64.contribution.
  rewrite getitem_get, Hget. cbn [Py.bind].
  now rewrite (truediv_nonzero _ _ HE), (truediv_nonzero _ _ HG).
Qed.

Lemma assigned_cons_f64 table name vf rest c :
  PyDict.get table name = Some c ->
  F64.Spec.assigned table ((name, vf) :: rest) =
  (c, vf) :: F64.Spec.assigned table rest.
Proof.
  intros Hget. unfold F64.Spec.assigned. cbn [flat_map fst snd].
  now rewrite Hget.
Qed.

(** On registered names with positive moduli the loop looks every
    constituent up and divides without raising. *)
Lemma contributions_assigned_f64 table (assignment : PyDict.t float) : forall a,
  F64.Spec.over_registered table assignment ->
  F64.Spec.positive_moduli (F64.Spec.assigned table assignment) ->
  F64.contributions table assignment a =
  Ok (fold_left F64.accumulate (F64.Spec.assigned table assignment) a).
Proof.
  induction assignment as [|[name vf] rest IH]; intros a Hreg Hpos; [reflexivity|].
  destruct (in_keys_get table name) as [c Hget].
  { apply Hreg. now left. }
  rewrite (assigned_cons_f64 _ _ _ _ _ Hget) in *.
  destruct (Hpos c vf (or_introl eq_refl)) as [HE HG].
  cbn [F64.contributions].
  rewrite (contribution_accumulates _ _ _ _ _ Hget
             (positive_nonzero _ HE) (positive_nonzero _ HG)).
  cbn [Py.bind fold_left]. apply IH.
  - intros n Hn. apply Hreg. now right.
  - intros c' V' Hin. apply (Hpos c' V'). now right.
Qed.

Lemma accumulate_sums_f64 cs : forall a,
  fold_left F64.accumulate cs a =
  F64.Acc.mk
    (fold_left (fun acc cv => (acc + F64.Constituent.E (fst cv) * snd cv)%float)
       cs (F64.Acc.E1 a))
    (fold_left (fun acc cv => (acc + snd cv / F64.Constituent.E (fst cv))%float)
       cs (F64.Acc.E2_denominator a))
    (fold_left (fun acc cv => (acc + snd cv / F64.Constituent.G (fst cv))%float)
       cs (F64.Acc.G12_denominator a))
    (fold_left (fun acc cv => (acc + F64.Constituent.nu (fst cv) * snd cv)%float)
       cs (F64.Acc.nu12 a))
    (fold_left (fun acc cv => (acc + F64.Constituent.density (fst cv) * snd cv)%float)
       cs (F64.Acc.density a)).
Proof.
  induction cs as [|[c V] cs IH]; intros a; [now destruct a|].
  cbn [fold_left]. now rewrite IH.
Qed.

(** The accumulators after both loops are the five sums. *)
Lemma accumulate_init_f64 cs :
  fold_left F64.accumulate cs F64.Acc.init =
  F64.Acc.mk (F64.Spec.E1 cs) (F64.Spec.inv_E2 cs) (F64.Spec.inv_G12 cs)
    (F64.Spec.nu12 cs) (F64.Spec.density cs).
Proof. now rewrite accumulate_sums_f64. Qed.

(** The computation on registered names with positive moduli: the
    rule of mixtures, unless one of the three divisors is zero. *)
Lemma compute_composite_f64 (m : F64.materials_db) (fsel msel : PyDict.t float) :
  F64.Spec.over_registered (F64.fibers m) fsel ->
  F64.Spec.over_registered (F64.matrices m) msel ->
  F64.Spec.positive_moduli (F64.Spec.selected_constituents m fsel msel) ->
  F64.compute_composite m fsel msel =
  if F64.Spec.zero_divisor (F64.Spec.selected_constituents m fsel msel)
  then Raise ZeroDivisionError
  else Ok (F64.Spec.rule_of_mixtures
             (F64.Spec.selected_constituents m fsel msel) fsel msel).
Proof.
  intros Hrf Hrm Hpos. unfold F64.compute_composite, PyDict.items.
  rewrite (contributions_assigned_f64 _ _ _ Hrf).
  2:{ intros c V Hin. apply (Hpos c V). apply in_or_app. now left. }
  cbn [Py.bind].
  rewrite (contributions_assigned_f64 _ _ _ Hrm).
  2:{ intros c V Hin. apply (Hpos c V). apply in_or_app. now right. }
  cbn [Py.bind]. rewrite <- fold_left_app.
  fold (F64.Spec.selected_constituents m fsel msel).
  rewrite accumulate_init_f64.
  cbn [F64.Acc.E1 F64.Acc.E2_denominator F64.Acc.G12_denominator
       F64.Acc.nu12 F64.Acc.density].
  unfold F64.Spec.zero_divisor, F64.truediv.
  destruct (F64.is_zero (F64.Spec.inv_E2 _)); [reflexivity|].
  cbn [Py.bind].
  destruct (F64.is_zero (F64.Spec.inv_G12 _)); [reflexivity|].
  cbn [Py.bind].
  destruct (F64.is_zero (F64.Spec.E1 _)); reflexivity.
Qed.

(** A returned record went through the three divisions. *)
Lemma compute_composite_f64_inv (m : F64.materials_db) fsel msel c :
  F64.compute_composite m fsel msel = Ok c ->
  F64.is_zero (F64.Composite.E1 c) = false /\
  F64.Composite.nu21 c =
    (F64.Composite.nu12 c * F64.Composite.E2 c / F64.Composite.E1 c)%float /\
  F64.Composite.fiber_constituents c = fsel /\
  F64.Composite.matrix_constituents c = msel.
Proof.
  unfold F64.compute_composite, PyDict.items.
  destruct (F64.contributions (F64.fibers m) fsel F64.Acc.init) as [a0|];
    cbn [Py.bind]; [|discriminate].
  destruct (F64.contributions (F64.matrices m) msel a0) as [a|];
    cbn [Py.bind]; [|discriminate].
  unfold F64.truediv.
  destruct (F64.is_zero (F64.Acc.E2_denominator a)); cbn [Py.bind]; [discriminate|].
  destruct (F64.is_zero (F64.Acc.G12_denominator a)); cbn [Py.bind]; [discriminate|].
  destruct (F64.is_zero (F64.Acc.E1 a)) eqn:HE1; cbn [Py.bind]; [discriminate|].
  intros H. injection H as <-. cbn. auto.
Qed.



(** ** The tab on binary64 floats: the balance check and the run *)

Lemma check_balance_f64_None (tf tm : float) :
  F64.check_balance tf tm = None <->
  (PrimFloat.abs (tf + tm - 1) <=? F64.tolerance)%float = true.
Proof.
  unfold F64.check_balance, F64.Np.isclose, F64.tolerance.
  destruct (_ <=? _)%float; simpl; split; congruence.
Qed.

Lemma check_balance_f64_Some (tf tm : float) :
  F64.check_balance tf tm <> None ->
  F64.check_balance tf tm =
  Some ("Total volume fractions must sum to 1.0 (current: "
        ++ F64.format_2f (tf + tm) ++ ")")%string.
Proof.
  unfold F64.check_balance. destruct (negb _); [reflexivity|congruence].
Qed.

(** The message of the check is never the empty string, so
    [not vf_error] holds exactly when there is none. *)
Lemma not_check_balance_f64 (tf tm : float) :
  not_ (F64.check_balance tf tm) = true <-> F64.check_balance tf tm = None.
Proof.
  unfold F64.check_balance. destruct (negb _); simpl; split; congruence.
Qed.

(** The total of fractions that are all zero is the positive zero. *)
Lemma total_zero table w :
  (forall name, In name (PyDict.keys table) ->
     F64.is_zero (F64.vf_input w (F64.vf_key name)) = true) ->
  F64.total table w = 0%float.
Proof.
  unfold F64.total. induction table as [|[name c] table IH]; intros Hzero;
    [reflexivity|].
  cbn [fold_left fst]. rewrite add_zero by (apply Hzero; now left).
  apply IH. intros n Hn. apply Hzero. now right.
Qed.

Lemma calculate_composite_f64_run w fsel msel vf_error r :
  F64.calculate_composite w fsel msel vf_error r =
  if F64.calculate w && not_ vf_error && str_truthy (F64.composite_name w) then
    match F64.compute_composite (F64.db (F64.session r)) fsel msel with
    | Ok c =>
        (Ok tt,
         F64.mk_run (F64.set_composite (F64.composite_name w) c (F64.session r))
           (F64.page r) (F64.keys r))
    | Raise e => (Raise e, r)
    end
  else (Ok tt, r).
Proof.
  unfold F64.calculate_composite.
  destruct (F64.calculate w && not_ vf_error && str_truthy (F64.composite_name w));
    [|reflexivity].
  unfold F64.bind, F64.get, F64.lift, F64.modify.
  now destruct (F64.compute_composite (F64.db (F64.session r)) fsel msel).
Qed.

(** The Calculate branch writes nothing on the page and renders no
    number input. *)
Lemma calculate_composite_f64_page w fsel msel vf_error r :
  F64.page (snd (F64.calculate_composite w fsel msel vf_error r)) = F64.page r /\
  F64.keys (snd (F64.calculate_composite w fsel msel vf_error r)) = F64.keys r.
Proof.
  rewrite calculate_composite_f64_run.
  destruct (_ && _ && _); [|split; reflexivity].
  destruct (F64.compute_composite _ _ _); split; reflexivity.
Qed.

Lemma after_check_f64_session vf_error r :
  F64.session (F64.after_check vf_error r) = F64.session r.
Proof. now destruct vf_error. Qed.

(** The tab, one step at a time. *)
Lemma tab3_f64_unfold (w : F64.widgets) (r : F64.run) :
  F64.tab3 w r =
  let m := F64.db (F64.session r) in
  if negb (PyDict.truthy (F64.fibers m)) || negb (PyDict.truthy (F64.matrices m))
  then (Ok tt,
        F64.mk_run (F64.session r)
          (F64.page r
           ++ [St.warning "Please define at least one fiber and one matrix first"])
          (F64.keys r))
  else
    match F64.select w (F64.fibers m) [] 0%float r with
    | (Ok fiber, r1) =>
        match F64.select w (F64.matrices m) [] 0%float r1 with
        | (Ok matrix, r2) =>
            F64.calculate_composite w (fst fiber) (fst matrix)
              (F64.check_balance (snd fiber) (snd matrix))
              (F64.after_check (F64.check_balance (snd fiber) (snd matrix)) r2)
        | (Raise e, r2) => (Raise e, r2)
        end
    | (Raise e, r1) => (Raise e, r1)
    end.
Proof.
  unfold F64.tab3, F64.bind, F64.get, PyDict.items, PyDict.empty. cbv zeta.
  destruct (negb _ || negb _); [reflexivity|].
  destruct (F64.select w (F64.fibers _) [] 0%float r) as [[fiber|e] r1];
    [|reflexivity].
  destruct (F64.select w (F64.matrices _) [] 0%float r1) as [[matrix|e] r2];
    [|reflexivity].
  unfold F64.after_check.
  now destruct (F64.check_balance (snd fiber) (snd matrix)).
Qed.

(** The tab when no matrix shares its name with a fiber: both loops end, the
    balance message is shown if there is one, and the Calculate branch
    runs on the assignments of all registered names. *)
Lemma tab3_f64_run (w : F64.widgets) (s : F64.session_state) :
  F64.registry_wf (F64.db s) -> F64.clash (F64.db s) = None ->
  F64.tab3 w (F64.start s) =
  if negb (PyDict.truthy (F64.fibers (F64.db s)))
     || negb (PyDict.truthy (F64.matrices (F64.db s)))
  then (Ok tt,
        F64.mk_run s
          [St.warning "Please define at least one fiber and one matrix first"] [])
  else
    F64.calculate_composite w
      (F64.selected (F64.fibers (F64.db s)) w)
      (F64.selected (F64.matrices (F64.db s)) w)
      (F64.vf_error w (F64.db s))
      (F64.after_check (F64.vf_error w (F64.db s))
         (F64.mk_run s []
            (F64.vf_keys (F64.fibers (F64.db s))
             ++ F64.vf_keys (F64.matrices (F64.db s))))).
Proof.
  intros [Hwf Hwm] Hclash. rewrite tab3_f64_unfold. cbv zeta.
  unfold F64.start. cbn [F64.session F64.page F64.keys app].
  destruct (negb (PyDict.truthy (F64.fibers (F64.db s)))
            || negb (PyDict.truthy (F64.matrices (F64.db s)))); [reflexivity|].
  rewrite select_ok; [|exact Hwf|intros name _ []].
  cbn [F64.session F64.page F64.keys app].
  rewrite select_ok; [|exact Hwm|].
  2:{ cbn [F64.keys]. intros name Hm Hused.
      unfold F64.vf_keys in Hused. apply in_map_iff in Hused.
      destruct Hused as [n [Heq Hn]]. apply vf_key_inj in Heq. subst n.
      now apply (proj1 (clash_None _) Hclash name). }
  cbn [F64.session F64.page F64.keys app fst snd]. reflexivity.
Qed.

(** The tab when a matrix shares its name with a fiber: the matrix
    input asks for a key the fiber input has, and Streamlit raises
    there, before the balance check. *)
Lemma tab3_f64_clash (w : F64.widgets) (s : F64.session_state) name :
  F64.registry_wf (F64.db s) ->
  PyDict.truthy (F64.fibers (F64.db s)) = true ->
  PyDict.truthy (F64.matrices (F64.db s)) = true ->
  F64.clash (F64.db s) = Some name ->
  exists used,
    F64.tab3 w (F64.start s) =
    (Raise (DuplicateWidgetID (F64.vf_key name)), F64.mk_run s [] used).
Proof.
  intros [Hwf Hwm] Hf Hm Hclash. rewrite tab3_f64_unfold. cbv zeta.
  unfold F64.start. cbn [F64.session F64.page F64.keys app].
  rewrite Hf, Hm. cbn [negb orb].
  rewrite select_ok; [|exact Hwf|intros n _ []].
  cbn [F64.session F64.page F64.keys app].
  destruct (select_clash w (F64.matrices (F64.db s)) [] 0%float
              (F64.mk_run s [] (F64.vf_keys (F64.fibers (F64.db s)))) name Hwm)
    as [used Hrun]; [exact Hclash|].
  rewrite Hrun. now exists used.
Qed.

(** The tab changes the session state in the Calculate branch only. *)
Lemma tab3_f64_session (w : F64.widgets) (r : F64.run) :
  F64.session (snd (F64.tab3 w r)) = F64.session r \/
  F64.calculate w && str_truthy (F64.composite_name w) = true.
Proof.
  destruct (F64.calculate w && str_truthy (F64.composite_name w)) eqn:Hgo;
    [now right|left].
  rewrite tab3_f64_unfold. cbv zeta.
  destruct (negb _ || negb _); [reflexivity|].
  pose proof (select_keeps w (F64.fibers (F64.db (F64.session r))) [] 0%float r)
    as [Hs1 _].
  destruct (F64.select w (F64.fibers _) [] 0%float r) as [[fiber|e] r1];
    cbn [snd] in *; [|exact Hs1].
  pose proof (select_keeps w (F64.matrices (F64.db (F64.session r))) [] 0%float r1)
    as [Hs2 _].
  destruct (F64.select w (F64.matrices _) [] 0%float r1) as [[matrix|e] r2];
    cbn [snd] in *; [|congruence].
  rewrite calculate_composite_f64_run.
  assert (Hguard : F64.calculate w
                   && not_ (F64.check_balance (snd fiber) (snd matrix))
                   && str_truthy (F64.composite_name w) = false).
  { destruct (F64.calculate w); [|reflexivity].
    cbn in Hgo. rewrite Hgo. apply andb_false_r. }
  rewrite Hguard. cbn [snd]. rewrite after_check_f64_session. congruence.
Qed.

(** Without a composite name, or with the button released, the tab
    leaves the session state as it was, whatever else happens. *)
Lemma tab3_f64_skipped (w : F64.widgets) (r : F64.run) :
  F64.calculate w && str_truthy (F64.composite_name w) = false ->
  F64.session (snd (F64.tab3 w r)) = F64.session r.
Proof.
  intros Hskip. destruct (tab3_f64_session w r) as [H|H]; [exact H|congruence].
Qed.

(** With an empty composite name the button makes no difference. *)
Lemma tab3_f64_button (w w' : F64.widgets) (r : F64.run) :
  F64.composite_name w = EmptyString ->
  F64.composite_name w' = EmptyString ->
  F64.vf_input w' = F64.vf_input w ->
  F64.tab3 w' r = F64.tab3 w r.
Proof.
  intros Hn Hn' Hvf. rewrite !tab3_f64_unfold. cbv zeta.
  destruct (negb _ || negb _); [reflexivity|].
  rewrite !(select_ext w w' _ _ _ _ Hvf).
  destruct (F64.select w (F64.fibers _) [] 0%float r) as [[fiber|e] r1];
    [|reflexivity].
  rewrite !(select_ext w w' _ _ _ _ Hvf).
  destruct (F64.select w (F64.matrices _) [] 0%float r1) as [[matrix|e] r2];
    [|reflexivity].
  rewrite !calculate_composite_f64_run, Hn, Hn'. cbn [str_truthy].
  now rewrite !andb_false_r.
Qed.

(** ** The tab on binary64 floats: the assignments *)

Lemma over_registered_selected table w :
  F64.Spec.over_registered table (F64.selected table w).
Proof. intros name. now rewrite keys_selected_f64. Qed.

(** The assignment built from a registry table selects the whole table,
    in its order. *)
Lemma assigned_selected_f64 table w :
  PyDict.wf table ->
  F64.Spec.assigned table (F64.selected table w) =
  map (fun item : string * F64.Constituent.t =>
         (snd item, F64.vf_input w (F64.vf_key (fst item)))) table.
Proof.
  intros Hwf.
  assert (Hgen : forall items : PyDict.t F64.Constituent.t,
            (forall name c, In (name, c) items -> PyDict.get table name = Some c) ->
            F64.Spec.assigned table (F64.selected items w) =
            map (fun item : string * F64.Constituent.t =>
                   (snd item, F64.vf_input w (F64.vf_key (fst item)))) items).
  { induction items as [|[name c] items IH]; intros Hreg; [reflexivity|].
    change (F64.selected ((name, c) :: items) w)
      with ((name, F64.vf_input w (F64.vf_key name)) :: F64.selected items w).
    rewrite (assigned_cons_f64 _ _ _ _ _ (Hreg name c (or_introl eq_refl))).
    cbn [map fst snd]. f_equal.
    apply IH. intros n c' Hin. apply Hreg. now right. }
  apply Hgen. intros name c Hin. now apply get_In.
Qed.

Lemma selected_constituents_f64 (m : F64.materials_db) w :
  F64.registry_wf m ->
  F64.Spec.selected_constituents m
    (F64.selected (F64.fibers m) w) (F64.selected (F64.matrices m) w)
  = F64.Spec.constituents m w.
Proof.
  intros [Hwf Hwm]. unfold F64.Spec.selected_constituents, F64.Spec.constituents.
  now rewrite !assigned_selected_f64.
Qed.

(** Every fraction of the sums is the value of the number input of a
    registered name. *)
Lemma in_constituents_f64 (m : F64.materials_db) w c V :
  In (c, V) (F64.Spec.constituents m w) ->
  exists name, V = F64.vf_input w (F64.vf_key name).
Proof.
  unfold F64.Spec.constituents. rewrite in_app_iff, !in_map_iff.
  intros [[[n c'] [Heq _]]|[[n c'] [Heq _]]]; exists n; cbn [fst snd] in Heq;
    now injection Heq as _ <-.
Qed.

(** ** The tab on binary64 floats: zero fractions *)

(** A zero divided by a positive float is a zero. *)
Lemma zero_quotient (v e : float) :
  F64.is_zero v = true -> (0 <? e)%float = true -> F64.is_zero (v / e)%float = true.
Proof.
  intros Hv He. unfold F64.is_zero.
  rewrite FloatAxioms.eqb_spec, div_spec. rewrite ltb_spec in He.
  destruct (is_zero_cases v Hv) as [-> | ->];
    destruct (Prim2SF e) as [s|s| |s m ex]; try discriminate;
    destruct s; try discriminate; reflexivity.
Qed.

(** A sum of zeros is the positive zero. *)
Lemma sigma_zero term cs :
  (forall cv, In cv cs -> F64.is_zero (term (fst cv) (snd cv)) = true) ->
  F64.Spec.sigma term cs = 0%float.
Proof.
  unfold F64.Spec.sigma. induction cs as [|cv cs IH]; intros Hzero; [reflexivity|].
  cbn [fold_left]. rewrite add_zero by (apply Hzero; now left).
  apply IH. intros cv' Hin. apply Hzero. now right.
Qed.

(** ** The binary64 scenarios *)

Lemma scenario_f64_wf : F64.registry_wf F64.Scenario.registry.
Proof.
  split; unfold PyDict.wf; cbn; constructor; auto; constructor.
Qed.

Lemma scenario_f64_positive w :
  F64.Spec.positive_moduli (F64.Spec.constituents F64.Scenario.registry w).
Proof.
  intros c V [H|[H|[]]]; inversion H; subst; split; reflexivity.
Qed.

(** ** The tab on binary64 floats: when nothing is stored *)

(** The total a loop returns is the sum of the number inputs of the
    table, whatever the dictionary it fills. *)
Lemma select_total_f64 w items : forall sel tot r fiber r',
  F64.select w items sel tot r = (Ok fiber, r') ->
  snd fiber =
  fold_left (fun t (item : string * F64.Constituent.t) =>
               (t + F64.vf_input w (F64.vf_key (fst item)))%float) items tot.
Proof.
  induction items as [|[name c] items IH]; intros sel tot r fiber r' Hrun.
  - cbn in Hrun. unfold F64.ret in Hrun. now injection Hrun as <- _.
  - cbn [F64.select] in Hrun. unfold F64.bind, F64.number_input in Hrun.
    destruct (existsb (String.eqb (F64.vf_key name)) (F64.keys r)); [discriminate|].
    apply IH in Hrun. exact Hrun.
Qed.

(** When the balance check fails the tab leaves the session state as it
    was, whether it ends normally or raises at a number input. *)
Lemma tab3_f64_failed_check (w : F64.widgets) (r : F64.run) :
  F64.vf_error w (F64.db (F64.session r)) <> None ->
  F64.session (snd (F64.tab3 w r)) = F64.session r.
Proof.
  intros Hfail. rewrite tab3_f64_unfold. cbv zeta.
  destruct (negb _ || negb _); [reflexivity|].
  pose proof (select_keeps w (F64.fibers (F64.db (F64.session r))) [] 0%float r)
    as [Hs1 _].
  destruct (F64.select w (F64.fibers _) [] 0%float r) as [[fiber|e] r1] eqn:Hfib;
    cbn [snd] in Hs1; [|exact Hs1].
  pose proof (select_keeps w (F64.matrices (F64.db (F64.session r))) [] 0%float r1)
    as [Hs2 _].
  destruct (F64.select w (F64.matrices _) [] 0%float r1) as [[matrix|e] r2] eqn:Hmat;
    cbn [snd] in Hs2 |- *; [|congruence].
  apply select_total_f64 in Hfib, Hmat.
  fold (F64.total (F64.fibers (F64.db (F64.session r))) w) in Hfib.
  fold (F64.total (F64.matrices (F64.db (F64.session r))) w) in Hmat.
  rewrite Hfib, Hmat. fold (F64.vf_error w (F64.db (F64.session r))).
  rewrite calculate_composite_f64_run.
  destruct (not_ (F64.vf_error w (F64.db (F64.session r)))) eqn:Hnot.
  - apply not_check_balance_f64 in Hnot. contradiction.
  - rewrite andb_false_r. cbn [andb snd].
    rewrite after_check_f64_session. congruence.
Qed.

(** On a fresh run over a registry that holds each name once, the tab
    ends with the session state as it was, or with the record the
    computation returned stored under the composite name; the latter
    only when there is a fiber and a matrix, no matrix shares its name
    with a fiber, the button was pressed, the balance check passed and
    the name is not empty. *)
Lemma tab3_f64_stores (w : F64.widgets) (s : F64.session_state) :
  F64.registry_wf (F64.db s) ->
  F64.session (snd (F64.tab3 w (F64.start s))) = s \/
  exists c,
    F64.compute_composite (F64.db s)
      (F64.selected (F64.fibers (F64.db s)) w)
      (F64.selected (F64.matrices (F64.db s)) w) = Ok c /\
    F64.tab3 w (F64.start s) =
    (Ok tt,
     F64.mk_run (F64.set_composite (F64.composite_name w) c s) []
       (F64.vf_keys (F64.fibers (F64.db s)) ++ F64.vf_keys (F64.matrices (F64.db s)))) /\
    F64.calculate w = true /\
    F64.vf_error w (F64.db s) = None /\
    F64.composite_name w <> EmptyString /\
    PyDict.truthy (F64.fibers (F64.db s)) = true /\
    PyDict.truthy (F64.matrices (F64.db s)) = true /\
    F64.clash (F64.db s) = None.
Proof.
  intros Hwf.
  destruct (PyDict.truthy (F64.fibers (F64.db s))) eqn:Hf.
  2:{ left. rewrite tab3_f64_unfold. cbv zeta. cbn [F64.start F64.session].
      now rewrite Hf. }
  destruct (PyDict.truthy (F64.matrices (F64.db s))) eqn:Hm.
  2:{ left. rewrite tab3_f64_unfold. cbv zeta. cbn [F64.start F64.session].
      now rewrite Hf, Hm. }
  destruct (F64.clash (F64.db s)) as [name|] eqn:Hclash.
  { left. destruct (tab3_f64_clash w s name Hwf Hf Hm Hclash) as [used ->].
    reflexivity. }
  rewrite (tab3_f64_run w s Hwf Hclash), Hf, Hm. cbn [negb orb].
  rewrite calculate_composite_f64_run.
  destruct (F64.calculate w) eqn:Hcalc; cbn [andb];
    [|left; apply after_check_f64_session].
  destruct (not_ (F64.vf_error w (F64.db s))) eqn:Hnot; cbn [andb];
    [|left; apply after_check_f64_session].
  apply not_check_balance_f64 in Hnot.
  fold (F64.vf_error w (F64.db s)) in Hnot.
  destruct (F64.composite_name w) as [|a name'] eqn:Hname; cbn [str_truthy];
    [left; apply after_check_f64_session|].
  rewrite Hnot. cbn [F64.after_check F64.session F64.page F64.keys].
  destruct (F64.compute_composite _ _ _) as [c|e] eqn:Hcomp; [|now left].
  right. exists c. repeat split; try reflexivity; try assumption. discriminate.
Qed.

(** ** Reciprocity over exact arithmetic *)


(** ** The exceptions of the computation on floats *)

Lemma contributions_f64_exceptions table (assignment : PyDict.t float) :
  forall a key,
  F64.contributions table assignment a <> Raise (DuplicateWidgetID key).
Proof.
  induction assignment as [|[name vf] rest IH]; intros a key; [discriminate|].
  cbn [F64.contributions]. unfold F64.contribution.
  rewrite getitem_get.
  destruct (PyDict.get table name) as [c|]; cbn [Py.bind]; [|discriminate].
  unfold F64.truediv.
  destruct (F64.is_zero (F64.Constituent.E c)); cbn [Py.bind]; [discriminate|].
  destruct (F64.is_zero (F64.Constituent.G c)); cbn [Py.bind]; [discriminate|].
  apply IH.
Qed.

(** Streamlit's exception never comes from the computation. *)
Lemma compute_composite_f64_exceptions (m : F64.materials_db) fsel msel key :
  F64.compute_composite m fsel msel <> Raise (DuplicateWidgetID key).
Proof.
  unfold F64.compute_composite, PyDict.items.
  pose proof (contributions_f64_exceptions (F64.fibers m) fsel F64.Acc.init key) as Hf.
  destruct (F64.contributions (F64.fibers m) fsel F64.Acc.init) as [a0|e];
    cbn [Py.bind]; [|intros H; apply Hf; congruence].
  pose proof (contributions_f64_exceptions (F64.matrices m) msel a0 key) as Hm.
  destruct (F64.contributions (F64.matrices m) msel a0) as [a|e];
    cbn [Py.bind]; [|intros H; apply Hm; congruence].
  unfold F64.truediv.
  destruct (F64.is_zero (F64.Acc.E2_denominator a)); cbn [Py.bind]; [discriminate|].
  destruct (F64.is_zero (F64.Acc.G12_denominator a)); cbn [Py.bind]; [discriminate|].
  destruct (F64.is_zero (F64.Acc.E1 a)); cbn [Py.bind]; discriminate.
Qed.

(** * The claims *)

(** ** C1: the rule of mixtures *)

(** C1, as stated, fails.  Carbon and Epoxy have positive E and G and
    the assignments with both fractions at 0.0 name registered
    constituents only; yet with the Calculate button pressed no record
    is returned.  The tab reports the sum mismatch and stores nothing,
    and the formulas have no value there: the sums of V/E and of V/G
    are zero. *)
Lemma no_record_at_zero_fractions :
  let w := F64.Scenario.composite_form "Carbon/Epoxy" 0 0 true in
  let m := F64.Scenario.registry in
  let fsel := F64.selected (F64.fibers m) w in
  let msel := F64.selected (F64.matrices m) w in
  let cs := F64.Spec.selected_constituents m fsel msel in
  F64.Spec.over_registered (F64.fibers m) fsel /\
  F64.Spec.over_registered (F64.matrices m) msel /\
  F64.Spec.positive_moduli cs /\
  F64.Spec.inv_E2 cs = 0%float /\ F64.Spec.inv_G12 cs = 0%float /\
  F64.compute_composite m fsel msel = Raise ZeroDivisionError /\
  F64.tab3 w (F64.start F64.Scenario.session) =
  (Ok tt,
   F64.mk_run F64.Scenario.session
     [St.error "Total volume fractions must sum to 1.0 (current: 0.00)"]
     ["vf_Carbon"; "vf_Epoxy"]).
Proof.
  cbv zeta.
  split; [apply over_registered_selected|].
  split; [apply over_registered_selected|].
  split; [rewrite (selected_constituents_f64 _ _ scenario_f64_wf);
          apply scenario_f64_positive|].
  repeat split; vm_compute; reflexivity.
Qed.

(** C1, amended.  On assignments over registered names whose selected
    constituents all have E > 0 and G > 0, the computation raises
    [ZeroDivisionError] when the sum of V/E, the sum of V/G or E1 is
    zero, and otherwise returns exactly the record of the rule of
    mixtures: E1, nu12 and density the sums of E*V, nu*V and rho*V,
    E2 = 1 / (sum of V/E), G12 = 1 / (sum of V/G) and
    nu21 = nu12 * E2 / E1, every operation in binary64 and every sum
    taken from 0.0 over the fiber assignment first and the matrix
    assignment next.  The assignments the tab builds hold every
    registered fiber and matrix in registry insertion order, zero
    fractions included, and the computation runs on them only when the
    button is pressed, the balance check has passed and the composite
    name is not empty (and no matrix shares its name with a fiber); its
    record is then stored under that name. *)
Theorem rule_of_mixtures_unless_zero_divisor (m : F64.materials_db) :
  (forall fsel msel : PyDict.t float,
     F64.Spec.over_registered (F64.fibers m) fsel ->
     F64.Spec.over_registered (F64.matrices m) msel ->
     let cs := F64.Spec.selected_constituents m fsel msel in
     F64.Spec.positive_moduli cs ->
     F64.compute_composite m fsel msel =
     if F64.Spec.zero_divisor cs then Raise ZeroDivisionError
     else Ok (F64.Spec.rule_of_mixtures cs fsel msel)) /\
  (forall (w : F64.widgets) (composites : PyDict.t F64.Composite.t),
     let s := {| F64.db := m; F64.composite_definitions := composites |} in
     let fsel := F64.selected (F64.fibers m) w in
     let msel := F64.selected (F64.matrices m) w in
     let cs := F64.Spec.constituents m w in
     let used := (F64.vf_keys (F64.fibers m) ++ F64.vf_keys (F64.matrices m))%list in
     F64.registry_wf m ->
     F64.Spec.over_registered (F64.fibers m) fsel /\
     F64.Spec.over_registered (F64.matrices m) msel /\
     F64.Spec.selected_constituents m fsel msel = cs /\
     (F64.clash m = None ->
      PyDict.truthy (F64.fibers m) = true -> PyDict.truthy (F64.matrices m) = true ->
      F64.calculate w = true -> F64.composite_name w <> EmptyString ->
      F64.vf_error w m = None ->
      F64.Spec.positive_moduli cs ->
      F64.tab3 w (F64.start s) =
      if F64.Spec.zero_divisor cs
      then (Raise ZeroDivisionError, F64.mk_run s [] used)
      else (Ok tt,
            F64.mk_run
              (F64.set_composite (F64.composite_name w)
                 (F64.Spec.rule_of_mixtures cs fsel msel) s)
              [] used))).
Proof.
  split.
  - intros fsel msel Hrf Hrm cs Hpos. now apply compute_composite_f64.
  - intros w composites s fsel msel cs used Hwf.
    pose proof (selected_constituents_f64 m w Hwf) as Hcs.
    split; [apply over_registered_selected|].
    split; [apply over_registered_selected|].
    split; [exact Hcs|].
    intros Hclash Hf Hm Hcalc Hname Hbal Hpos. subst s fsel msel cs used.
    rewrite (tab3_f64_run w {| F64.db := m; F64.composite_definitions := composites |}
               Hwf Hclash).
    cbn [F64.db].
    rewrite Hf, Hm. cbn [negb orb].
    rewrite calculate_composite_f64_run, Hbal, Hcalc.
    destruct (F64.composite_name w) eqn:Hn; [congruence|].
    cbn [not_ str_truthy andb F64.after_check F64.session F64.page F64.keys F64.db].
    rewrite compute_composite_f64;
      [|apply over_registered_selected|apply over_registered_selected
       |now rewrite Hcs].
    rewrite Hcs. now destruct (F64.Spec.zero_divisor (F64.Spec.constituents m w)).
Qed.

Lemma rule_of_mixtures_unless_zero_divisor_witness :
  let w := F64.Scenario.composite_form "Carbon/Epoxy" 0.6 0.4 true in
  let m := F64.Scenario.registry in
  let fsel := [("Carbon", 0.6%float)] in
  let msel := [("Epoxy", 0.4%float)] in
  let cs := [(F64.Scenario.carbon, 0.6%float); (F64.Scenario.epoxy, 0.4%float)] in
  F64.compute_composite m fsel msel = Ok (F64.Spec.rule_of_mixtures cs fsel msel) /\
  F64.tab3 w (F64.start F64.Scenario.session) =
  (Ok tt,
   F64.mk_run
     (F64.set_composite "Carbon/Epoxy" (F64.Spec.rule_of_mixtures cs fsel msel)
        F64.Scenario.session)
     [] ["vf_Carbon"; "vf_Epoxy"]).
Proof.
  intros w m fsel msel cs.
  destruct (rule_of_mixtures_unless_zero_divisor m) as [Hcompute Htab].
  split.
  - apply (Hcompute fsel msel (over_registered_selected (F64.fibers m) w)
             (over_registered_selected (F64.matrices m) w)
             (scenario_f64_positive w)).
  - destruct (Htab w PyDict.empty scenario_f64_wf) as (_ & _ & _ & Hrun).
    apply (Hrun eq_refl eq_refl eq_refl eq_refl); [discriminate|reflexivity|].
    apply scenario_f64_positive.
Defined.

(** ** C2: the Carbon/Epoxy scenario *)

(** C2, as stated, fails: the computation on Carbon at 0.6 and Epoxy at
    0.4 returns E1 = 139.4, not 138.4; E2 = 8050/941, which is 8.55 and
    not 8.97 to two decimals; G12 = 1950/613, which is 3.18 and not
    3.19. *)
Lemma carbon_epoxy_not_as_claimed :
  exists c,
    compute_composite Scenario.registry [("Carbon", 0.6)] [("Epoxy", 0.4)] = Ok c /\
    ~ Spec.approx_2dp (Composite.E1 c) 138.4 /\
    ~ Spec.approx_2dp (Composite.E2 c) 8.97 /\
    ~ Spec.approx_2dp (Composite.G12 c) 3.19 /\
    Composite.E1 c - 138.4 == 1 /\
    0.41 < 8.97 - Composite.E2 c.
Proof.
  eexists. split; [vm_compute; reflexivity|].
  unfold Spec.approx_2dp.
  repeat split; vm_compute; congruence.
Qed.

(** C2, amended. On the registry with fiber Carbon (E=230, nu=0.2, G=90,
    rho=1.8) and matrix Epoxy (E=3.5, nu=0.35, G=1.3, rho=1.2), at
    fractions 0.6 and 0.4, the computation returns the record of the
    rule of mixtures on these inputs: E1 = 139.4, E2 = 8050/941 (8.55 to
    two decimals), G12 = 1950/613 (3.18), nu12 = 0.26,
    nu21 = nu12 * E2 / E1 and density = 1.56; the balance check passes,
    and the values shown with two decimals are 139.40, 8.55, 3.18, 0.26
    and 1.56. *)
Theorem carbon_epoxy_scenario :
  let fsel := [("Carbon", 0.6)] in
  let msel := [("Epoxy", 0.4)] in
  let cs := [(Scenario.carbon, 0.6); (Scenario.epoxy, 0.4)] in
  select (fibers Scenario.registry) (fun _ => 0.6) = (fsel, 0.0 + 0.6) /\
  select (matrices Scenario.registry) (fun _ => 0.4) = (msel, 0.0 + 0.4) /\
  check_balance (0.0 + 0.6) (0.0 + 0.4) = None /\
  compute_composite Scenario.registry fsel msel =
    Ok (Spec.rule_of_mixtures cs fsel msel) /\
  Spec.E1 cs == 139.4 /\
  Spec.E2 cs == 8050 # 941 /\
  Spec.G12 cs == 1950 # 613 /\
  Spec.nu12 cs == 0.26 /\
  Spec.nu21 cs == Spec.nu12 cs * Spec.E2 cs / Spec.E1 cs /\
  Spec.density cs == 1.56 /\
  Spec.approx_2dp (Spec.E1 cs) 139.4 /\
  Spec.approx_2dp (Spec.E2 cs) 8.55 /\
  Spec.approx_2dp (Spec.G12 cs) 3.18 /\
  Spec.approx_2dp (Spec.nu12 cs) 0.26 /\
  Spec.approx_2dp (Spec.density cs) 1.56 /\
  map format_2f
    [Spec.E1 cs; Spec.E2 cs; Spec.G12 cs; Spec.nu12 cs; Spec.density cs]
  = ["139.40"; "8.55"; "3.18"; "0.26"; "1.56"].
Proof.
  cbv zeta.
  repeat match goal with |- _ /\ _ => split end;
    try reflexivity;
    try (unfold Spec.approx_2dp; vm_compute; discriminate).
Qed.

(** ** C3: the tolerance of the balance check *)

(** C3, as stated, fails: with Carbon at 0.6 and Epoxy at 0.410005 the
    total deviates from 1.0 by more than 0.01, and yet the check
    passes, no message is shown and the composite is stored. *)
Lemma balance_check_accepts_beyond_one_hundredth :
  let w := F64.Scenario.composite_form "Carbon/Epoxy" 0.6 0.410005 true in
  let s := F64.Scenario.session in
  let total := (F64.total (F64.fibers (F64.db s)) w
                + F64.total (F64.matrices (F64.db s)) w)%float in
  (exists q, F64.exact total = Some q /\ 0.01 < Qabs (q - 1)) /\
  (0.01 <? PrimFloat.abs (total - 1))%float = true /\
  F64.vf_error w (F64.db s) = None /\
  F64.page (snd (F64.tab3 w (F64.start s))) = [] /\
  PyDict.keys (F64.composite_definitions (F64.session (snd (F64.tab3 w (F64.start s)))))
  = ["Carbon/Epoxy"].
Proof.
  cbv zeta. split.
  - eexists. split; [vm_compute; reflexivity|]. vm_compute. reflexivity.
  - repeat split; vm_compute; reflexivity.
Qed.

(** C3, amended.  The balance check passes exactly when the distance of
    the total from 1.0, computed in binary64, is at most
    0.01 + 1e-05 * |1.0|, which is the float 0.01001: the tolerance of
    [numpy.isclose] with [atol=0.01] and its default [rtol].  When the
    check fails its message carries the total formatted with two
    decimals, and the tab (given at least one fiber and one matrix, no
    matrix sharing its name with a fiber) shows it as an error.  The
    totals it adds are the sums of the fractions of the two assignments.
    Totals of 0.991 and 1.009 pass; totals of 0.98 and 1.02 fail. *)
Theorem balance_check_tolerance :
  F64.tolerance = 0.01001%float /\
  (forall tf tm : float,
     F64.check_balance tf tm = None <->
     (PrimFloat.abs (tf + tm - 1) <=? F64.tolerance)%float = true) /\
  (forall tf tm : float,
     F64.check_balance tf tm <> None ->
     F64.check_balance tf tm =
     Some ("Total volume fractions must sum to 1.0 (current: "
           ++ F64.format_2f (tf + tm) ++ ")")) /\
  (forall table w, F64.total table w = F64.Spec.total (F64.selected table w)) /\
  (forall (w : F64.widgets) (s : F64.session_state),
     F64.registry_wf (F64.db s) -> F64.clash (F64.db s) = None ->
     PyDict.truthy (F64.fibers (F64.db s)) = true ->
     PyDict.truthy (F64.matrices (F64.db s)) = true ->
     F64.page (snd (F64.tab3 w (F64.start s))) =
     match F64.check_balance (F64.total (F64.fibers (F64.db s)) w)
                             (F64.total (F64.matrices (F64.db s)) w) with
     | Some msg => [St.error msg]
     | None => []
     end) /\
  (forall tf tm : float,
     (tf + tm)%float = 0.991%float \/ (tf + tm)%float = 1.009%float ->
     F64.check_balance tf tm = None) /\
  (forall tf tm : float,
     (tf + tm)%float = 0.98%float \/ (tf + tm)%float = 1.02%float ->
     F64.check_balance tf tm <> None).
Proof.
  split; [reflexivity|].
  split; [exact check_balance_f64_None|].
  split; [exact check_balance_f64_Some|].
  split; [exact total_selected_f64|].
  split; [|split].
  - intros w s Hwf Hclash Hf Hm.
    rewrite (tab3_f64_run w s Hwf Hclash), Hf, Hm. cbn [negb orb].
    rewrite (proj1 (calculate_composite_f64_page _ _ _ _ _)).
    unfold F64.vf_error. now destruct (F64.check_balance _ _).
  - intros tf tm [H|H]; unfold F64.check_balance, F64.Np.isclose; now rewrite H.
  - intros tf tm [H|H]; unfold F64.check_balance, F64.Np.isclose; now rewrite H.
Qed.

Lemma balance_check_tolerance_witness :
  let w := F64.Scenario.composite_form "Carbon/Epoxy" 0.6 0.415 true in
  F64.page (snd (F64.tab3 w (F64.start F64.Scenario.session))) =
  [St.error "Total volume fractions must sum to 1.0 (current: 1.01)"].
Proof.
  intros w.
  destruct balance_check_tolerance as (_ & _ & _ & _ & Hpage & _).
  rewrite (Hpage w F64.Scenario.session scenario_f64_wf eq_refl eq_refl eq_refl).
  vm_compute. reflexivity.
Defined.

(** ** C4: zero denominators *)

(** C4, as stated, fails: with Carbon and Epoxy both at fraction 0.0
    the sums of V/E and of V/G evaluate to zero, and the failure the
    tab reports is the sum mismatch of the balance check; there is no
    other error for this input. *)
Lemma zero_denominators_reported_as_sum_mismatch :
  let w := F64.Scenario.composite_form "Carbon/Epoxy" 0 0 true in
  let cs := F64.Spec.constituents F64.Scenario.registry w in
  F64.is_zero (F64.Spec.inv_E2 cs) = true /\
  F64.is_zero (F64.Spec.inv_G12 cs) = true /\
  F64.tab3 w (F64.start F64.Scenario.session) =
  (Ok tt,
   F64.mk_run F64.Scenario.session
     [St.error "Total volume fractions must sum to 1.0 (current: 0.00)"]
     ["vf_Carbon"; "vf_Epoxy"]).
Proof.
  cbv zeta. repeat split; vm_compute; reflexivity.
Qed.

(** C4, amended.  Over exact arithmetic, with positive moduli and
    fractions in [0, 1], the sum of V/E or of V/G is zero only when
    every fraction is zero.  On such an input, in binary64, both sums
    evaluate to zero and the divisions are not reached: the totals add
    up to 0.0, the balance check rejects it with the message for a
    total of 0.00, and the tab (given at least one fiber and one matrix,
    no matrix sharing its name with a fiber) shows that message, ends
    normally and leaves the session state as it was.  There is no
    separate error for a zero denominator. *)
Theorem zero_fractions_stopped_by_balance_check :
  (forall (m : materials_db) (fvf mvf : string -> Q),
     fractions_in_range (fibers m) fvf -> fractions_in_range (matrices m) mvf ->
     positive_moduli (fibers m) -> positive_moduli (matrices m) ->
     let cs := Spec.constituents m fvf mvf in
     Spec.inv_E2 cs == 0 \/ Spec.inv_G12 cs == 0 ->
     forall cv, In cv cs -> snd cv == 0) /\
  (forall (w : F64.widgets) (s : F64.session_state),
     let m := F64.db s in
     let cs := F64.Spec.constituents m w in
     (forall name, F64.is_zero (F64.vf_input w (F64.vf_key name)) = true) ->
     (F64.Spec.positive_moduli cs ->
      F64.Spec.inv_E2 cs = 0%float /\ F64.Spec.inv_G12 cs = 0%float) /\
     F64.total (F64.fibers m) w = 0%float /\
     F64.total (F64.matrices m) w = 0%float /\
     F64.vf_error w m =
       Some "Total volume fractions must sum to 1.0 (current: 0.00)" /\
     F64.session (snd (F64.tab3 w (F64.start s))) = s /\
     (F64.registry_wf m -> F64.clash m = None ->
      PyDict.truthy (F64.fibers m) = true -> PyDict.truthy (F64.matrices m) = true ->
      F64.tab3 w (F64.start s) =
      (Ok tt,
       F64.mk_run s
         [St.error "Total volume fractions must sum to 1.0 (current: 0.00)"]
         (F64.vf_keys (F64.fibers m) ++ F64.vf_keys (F64.matrices m))))).
Proof.
  split.
  - intros m fvf mvf Hrf Hrm Hpf Hpm cs Hzero.
    now apply (zero_denominator_zero_fractions m fvf mvf Hrf Hrm Hpf Hpm).
  - intros w s m cs Hzero.
    assert (Htf : F64.total (F64.fibers m) w = 0%float)
      by (apply total_zero; intros; apply Hzero).
    assert (Htm : F64.total (F64.matrices m) w = 0%float)
      by (apply total_zero; intros; apply Hzero).
    assert (Hmsg : F64.vf_error w m =
                   Some "Total volume fractions must sum to 1.0 (current: 0.00)")
      by (unfold F64.vf_error; now rewrite Htf, Htm).
    split; [|split; [exact Htf|split; [exact Htm|split; [exact Hmsg|split]]]].
    + intros Hpos. split; apply sigma_zero; intros [c V] Hin; cbn [fst snd];
        destruct (in_constituents_f64 _ _ _ _ Hin) as [name ->];
        destruct (Hpos _ _ Hin) as [HE HG]; now apply zero_quotient.
    + apply (tab3_f64_failed_check w (F64.start s)).
      cbn [F64.start F64.session]. fold m. rewrite Hmsg. discriminate.
    + intros Hwf Hclash Hf Hm.
      rewrite (tab3_f64_run w s Hwf Hclash). fold m.
      rewrite Hf, Hm, Hmsg. cbn [negb orb].
      rewrite calculate_composite_f64_run. cbn [not_ str_truthy negb].
      now rewrite andb_false_r.
Qed.

Lemma zero_fractions_stopped_by_balance_check_witness :
  let w := F64.Scenario.composite_form "Carbon/Epoxy" 0 0 true in
  let cs := F64.Spec.constituents F64.Scenario.registry w in
  F64.Spec.inv_E2 cs = 0%float /\ F64.Spec.inv_G12 cs = 0%float /\
  F64.tab3 w (F64.start F64.Scenario.session) =
  (Ok tt,
   F64.mk_run F64.Scenario.session
     [St.error "Total volume fractions must sum to 1.0 (current: 0.00)"]
     ["vf_Carbon"; "vf_Epoxy"]).
Proof.
  intros w cs.
  destruct zero_fractions_stopped_by_balance_check as [_ Hzero].
  destruct (Hzero w F64.Scenario.session) as (Hsums & _ & _ & _ & _ & Hrun).
  - intros name. unfold w. cbn [F64.vf_input F64.Scenario.composite_form].
    now destruct (String.eqb (F64.vf_key name) "vf_Carbon").
  - destruct (Hsums (scenario_f64_positive w)) as [HE HG].
    split; [exact HE|]. split; [exact HG|].
    exact (Hrun scenario_f64_wf eq_refl eq_refl eq_refl).
Defined.

(** ** C5: names outside the registry *)



(** ** C6: fractions outside [0, 1] *)



(** ** C7: when nothing is stored *)

(** C7, as stated, fails: with Carbon at 0.6 and Epoxy at 0.389995 the
    total deviates from 1.0 by more than 0.01, a sum mismatch by the
    validation the specification describes, and yet the tab ends
    normally with a record computed and stored in the store that was
    empty. *)
Lemma stored_beyond_one_hundredth :
  let w := F64.Scenario.composite_form "Carbon/Epoxy" 0.6 0.389995 true in
  let s := F64.Scenario.session in
  let total := (F64.total (F64.fibers (F64.db s)) w
                + F64.total (F64.matrices (F64.db s)) w)%float in
  (exists q, F64.exact total = Some q /\ 0.01 < Qabs (q - 1)) /\
  F64.composite_definitions s = [] /\
  fst (F64.tab3 w (F64.start s)) = Ok tt /\
  PyDict.keys (F64.composite_definitions (F64.session (snd (F64.tab3 w (F64.start s)))))
  = ["Carbon/Epoxy"].
Proof.
  cbv zeta. split.
  - eexists. split; [vm_compute; reflexivity|]. vm_compute. reflexivity.
  - repeat split; vm_compute; reflexivity.
Qed.

(** C7, amended.  When the balance check of the tab fails, the only
    validation the code performs, nothing is computed or stored: the
    session state, the composite definitions included, is exactly as it
    was, whether the tab ends normally or Streamlit raises at a number
    input.  On a registry that holds each name once the session state
    after the tab is either unchanged or the old one with the computed
    record set under the composite name, the registry untouched, and
    the latter only when the tab ended normally, the button was pressed,
    the check passed, the name is not empty, there is a fiber and a
    matrix, no matrix shares its name with a fiber, and the computation
    returned the record. *)
Theorem failed_balance_check_stores_nothing (w : F64.widgets) (s : F64.session_state) :
  let m := F64.db s in
  let fsel := F64.selected (F64.fibers m) w in
  let msel := F64.selected (F64.matrices m) w in
  let r' := snd (F64.tab3 w (F64.start s)) in
  (F64.check_balance (F64.total (F64.fibers m) w) (F64.total (F64.matrices m) w)
     <> None ->
   F64.session r' = s) /\
  (F64.registry_wf m ->
   F64.session r' = s \/
   exists c,
     F64.compute_composite m fsel msel = Ok c /\
     fst (F64.tab3 w (F64.start s)) = Ok tt /\
     F64.db (F64.session r') = m /\
     F64.composite_definitions (F64.session r') =
       PyDict.setitem (F64.composite_definitions s) (F64.composite_name w) c /\
     F64.calculate w = true /\
     F64.check_balance (F64.total (F64.fibers m) w) (F64.total (F64.matrices m) w)
       = None /\
     F64.composite_name w <> EmptyString /\
     PyDict.truthy (F64.fibers m) = true /\
     PyDict.truthy (F64.matrices m) = true /\
     F64.clash m = None).
Proof.
  intros m fsel msel r'. subst m fsel msel r'. split.
  - intros Hfail. now apply (tab3_f64_failed_check w (F64.start s)).
  - intros Hwf.
    destruct (tab3_f64_stores w s Hwf)
      as [Hsame|[c (Hcomp & Hrun & Hcalc & Hbal & Hname & Hf & Hm & Hclash)]];
      [now left|right].
    exists c. rewrite Hrun. cbn [fst snd F64.session].
    now repeat split.
Qed.

Lemma failed_balance_check_stores_nothing_witness :
  let w := F64.Scenario.composite_form "Carbon/Epoxy" 0.6 0.3 true in
  let s := F64.Scenario.session in
  F64.check_balance (F64.total (F64.fibers (F64.db s)) w)
    (F64.total (F64.matrices (F64.db s)) w)
  = Some "Total volume fractions must sum to 1.0 (current: 0.90)" /\
  F64.session (snd (F64.tab3 w (F64.start s))) = s /\
  (F64.session (snd (F64.tab3 (F64.Scenario.composite_form "Carbon/Epoxy" 0.6 0.4 true)
                       (F64.start s))) = s \/
   exists c,
     F64.composite_definitions
       (F64.session (snd (F64.tab3 (F64.Scenario.composite_form "Carbon/Epoxy" 0.6 0.4 true)
                            (F64.start s))))
     = [("Carbon/Epoxy", c)]).
Proof.
  intros w s.
  assert (Hmsg : F64.check_balance (F64.total (F64.fibers (F64.db s)) w)
                   (F64.total (F64.matrices (F64.db s)) w)
                 = Some "Total volume fractions must sum to 1.0 (current: 0.90)")
    by (vm_compute; reflexivity).
  split; [exact Hmsg|]. split.
  - apply (proj1 (failed_balance_check_stores_nothing w s)).
    rewrite Hmsg. discriminate.
  - destruct (proj2 (failed_balance_check_stores_nothing
                       (F64.Scenario.composite_form "Carbon/Epoxy" 0.6 0.4 true) s)
                scenario_f64_wf) as [Hsame|[c (_ & _ & _ & Hstore & _)]].
    + now left.
    + right. exists c. exact Hstore.
Defined.

(** ** C8: reciprocity *)




(** ** C9: adding a fiber or a matrix *)

(** C9. With the Add Fiber button pressed, an empty fiber name is
    reported as an error and the session state stays as it was; any other
    name has the entered record inserted or overwritten under it in the
    fiber mapping (the last write wins, other names keep their records),
    with a success notice and nothing else changed: not the matrix
    mapping, not the composite definitions.  The Add Matrix button obeys
    the same contract over the matrix mapping. *)
Theorem add_constituent_contract (w : widgets) (r : St.run) :
  (add_fiber w = true ->
   let fiber :=
     Constituent.mk (E_fiber w) (nu_fiber w) (G_fiber w) (density_fiber w) in
   let s := St.session r in
   let r' := snd (tab1 w r) in
   fst (tab1 w r) = Ok tt /\
   matrices (db (St.session r')) = matrices (db s) /\
   composite_definitions (St.session r') = composite_definitions s /\
   (fiber_name w = EmptyString ->
    St.session r' = s /\
    exists rest,
      St.page r' = (St.page r ++ St.error "Please enter a fiber name" :: rest)%list) /\
   (fiber_name w <> EmptyString ->
    fibers (db (St.session r')) = PyDict.setitem (fibers (db s)) (fiber_name w) fiber /\
    Spec.upserted (fibers (db s)) (fibers (db (St.session r'))) (fiber_name w) fiber /\
    St.page r' =
      (St.page r ++ [St.success ("Added " ++ fiber_name w ++ " fiber to database")])%list))
  /\
  (add_matrix w = true ->
   let matrix :=
     Constituent.mk (E_matrix w) (nu_matrix w) (G_matrix w) (density_matrix w) in
   let s := St.session r in
   let r' := snd (tab2 w r) in
   fst (tab2 w r) = Ok tt /\
   fibers (db (St.session r')) = fibers (db s) /\
   composite_definitions (St.session r') = composite_definitions s /\
   (matrix_name w = EmptyString ->
    St.session r' = s /\
    exists rest,
      St.page r' = (St.page r ++ St.error "Please enter a matrix name" :: rest)%list) /\
   (matrix_name w <> EmptyString ->
    matrices (db (St.session r')) =
      PyDict.setitem (matrices (db s)) (matrix_name w) matrix /\
    Spec.upserted (matrices (db s)) (matrices (db (St.session r'))) (matrix_name w) matrix /\
    St.page r' =
      (St.page r ++ [St.success ("Added " ++ matrix_name w ++ " matrix to database")])%list)).
Proof.
  split; intros Hadd; cbv zeta.
  - destruct (string_dec (fiber_name w) EmptyString) as [Hname|Hname].
    + rewrite (tab1_rejected w r Hadd Hname). cbn [fst snd St.session St.page].
      split; [reflexivity|]. split; [reflexivity|]. split; [reflexivity|].
      split; [|congruence].
      intros _. split; [reflexivity|]. rewrite <- app_assoc. simpl. eauto.
    + rewrite (tab1_added w r Hadd Hname). cbn [fst snd St.session St.page].
      split; [reflexivity|]. split; [reflexivity|]. split; [reflexivity|].
      split; [congruence|].
      intros _. split; [reflexivity|]. split; [|reflexivity].
      apply setitem_upserted.
  - destruct (string_dec (matrix_name w) EmptyString) as [Hname|Hname].
    + rewrite (tab2_rejected w r Hadd Hname). cbn [fst snd St.session St.page].
      split; [reflexivity|]. split; [reflexivity|]. split; [reflexivity|].
      split; [|congruence].
      intros _. split; [reflexivity|]. rewrite <- app_assoc. simpl. eauto.
    + rewrite (tab2_added w r Hadd Hname). cbn [fst snd St.session St.page].
      split; [reflexivity|]. split; [reflexivity|]. split; [reflexivity|].
      split; [congruence|].
      intros _. split; [reflexivity|]. split; [|reflexivity].
      apply setitem_upserted.
Qed.

Lemma add_constituent_contract_witness :
  let w := Scenario.add_form "Carbon" EmptyString true true in
  let r := St.start initial_session_state in
  (add_fiber w = true /\ fiber_name w <> EmptyString /\
   fibers (db (St.session (snd (tab1 w r)))) = [("Carbon", Scenario.carbon)]) /\
  (add_matrix w = true /\ matrix_name w = EmptyString /\
   St.session (snd (tab2 w r)) = initial_session_state).
Proof.
  intros w r.
  destruct (add_constituent_contract w r) as [Hfiber Hmatrix].
  split.
  - split; [reflexivity|]. split; [discriminate|].
    destruct (Hfiber eq_refl) as (_ & _ & _ & _ & Hadded).
    destruct Hadded as (Hset & _); [discriminate|]. exact Hset.
  - split; [reflexivity|]. split; [reflexivity|].
    destruct (Hmatrix eq_refl) as (_ & _ & _ & Hrejected & _).
    destruct (Hrejected eq_refl) as (Hsame & _). exact Hsame.
Defined.

(** ** C10: an empty composite name *)

(** C10.  With an empty composite name the Composite Definition tab
    leaves the session state as it was, the composite definitions
    included, and pressing the Calculate button makes no difference to
    the run: the result, the page and the session state are those of
    the same run with the button released.  On a fresh run over a
    registry that holds each name once, no matrix sharing its name with
    a fiber, the tab ends normally and the page holds nothing but what
    the tab shows whatever the name: the notice that a fiber and a
    matrix are needed, or the balance message when the fractions do not
    add up; nothing is said about the name.  An empty fiber or matrix
    name, in contrast, is reported as an error by its Add button. *)
Theorem empty_composite_name_skipped (w : F64.widgets) (r : F64.run) :
  F64.composite_name w = EmptyString ->
  F64.session (snd (F64.tab3 w r)) = F64.session r /\
  (forall w', F64.composite_name w' = EmptyString ->
              F64.vf_input w' = F64.vf_input w ->
              F64.tab3 w' r = F64.tab3 w r) /\
  (forall s, r = F64.start s ->
     F64.registry_wf (F64.db s) -> F64.clash (F64.db s) = None ->
     F64.tab3 w r =
     if negb (PyDict.truthy (F64.fibers (F64.db s)))
        || negb (PyDict.truthy (F64.matrices (F64.db s)))
     then (Ok tt,
           F64.mk_run s
             [St.warning "Please define at least one fiber and one matrix first"] [])
     else (Ok tt,
           F64.mk_run s
             match F64.check_balance (F64.total (F64.fibers (F64.db s)) w)
                                     (F64.total (F64.matrices (F64.db s)) w) with
             | Some msg => [St.error msg]
             | None => []
             end
             (F64.vf_keys (F64.fibers (F64.db s))
              ++ F64.vf_keys (F64.matrices (F64.db s))))) /\
  (forall w1 r1, add_fiber w1 = true -> fiber_name w1 = EmptyString ->
     exists rest,
       St.page (snd (tab1 w1 r1)) =
       (St.page r1 ++ St.error "Please enter a fiber name" :: rest)%list) /\
  (forall w2 r2, add_matrix w2 = true -> matrix_name w2 = EmptyString ->
     exists rest,
       St.page (snd (tab2 w2 r2)) =
       (St.page r2 ++ St.error "Please enter a matrix name" :: rest)%list).
Proof.
  intros Hname. split; [|split; [|split; [|split]]].
  - apply tab3_f64_skipped. rewrite Hname. apply andb_false_r.
  - intros w' Hn' Hvf. now apply tab3_f64_button.
  - intros s -> Hwf Hclash. rewrite (tab3_f64_run w s Hwf Hclash).
    destruct (negb _ || negb _); [reflexivity|].
    rewrite calculate_composite_f64_run, Hname. cbn [str_truthy].
    rewrite andb_false_r. unfold F64.vf_error, F64.after_check.
    now destruct (F64.check_balance _ _).
  - intros w1 r1 Hadd Hn. rewrite (tab1_rejected w1 r1 Hadd Hn). simpl.
    rewrite <- app_assoc. simpl. eauto.
  - intros w2 r2 Hadd Hn. rewrite (tab2_rejected w2 r2 Hadd Hn). simpl.
    rewrite <- app_assoc. simpl. eauto.
Qed.

Lemma empty_composite_name_skipped_witness :
  let w := F64.Scenario.composite_form EmptyString 0.6 0.4 true in
  let r := F64.start F64.Scenario.session in
  F64.composite_name w = EmptyString /\
  F64.tab3 w r = (Ok tt, F64.mk_run F64.Scenario.session [] ["vf_Carbon"; "vf_Epoxy"]) /\
  F64.tab3 (F64.Scenario.composite_form EmptyString 0.6 0.4 false) r = F64.tab3 w r.
Proof.
  intros w r. split; [reflexivity|].
  destruct (empty_composite_name_skipped w r eq_refl) as (_ & Hbutton & Hrun & _).
  split.
  - rewrite (Hrun F64.Scenario.session eq_refl scenario_f64_wf eq_refl).
    vm_compute. reflexivity.
  - apply Hbutton; reflexivity.
Defined.

(** * Further properties of the script *)

(** ** The session state after a run *)

Lemma tab3_session_eq (w : widgets) (r : St.run) :
  St.session (snd (tab3 w r)) = after_tab3 w (St.session r).
Proof.
  rewrite (tab3_run w r). cbv zeta. unfold after_tab3, computes.
  destruct (PyDict.truthy (fibers (db (St.session r)))); simpl; [|reflexivity].
  destruct (PyDict.truthy (matrices (db (St.session r)))); simpl; [|reflexivity].
  rewrite calculate_composite_run, after_check_session.
  destruct (calculate w && not_ _ && str_truthy (composite_name w));
    [|apply after_check_session].
  destruct (compute_composite _ _ _); [reflexivity|apply after_check_session].
Qed.

Lemma material_properties_module_session (w : widgets) (r : St.run) :
  St.session (snd (material_properties_module w r)) =
  after_tab3 w (after_tab2 w (after_tab1 w (St.session r))).
Proof.
  unfold material_properties_module, St.bind.
  destruct (tab1_session w r) as [Hres1 Hs1].
  destruct (tab1 w r) as [res1 r1]. simpl in Hres1, Hs1. subst res1.
  destruct (tab2_session w r1) as [Hres2 Hs2].
  destruct (tab2 w r1) as [res2 r2]. simpl in Hres2, Hs2. subst res2.
  rewrite tab3_session_eq, Hs2, Hs1. reflexivity.
Qed.

Lemma next_session_eq (mode : app_mode) (w : widgets) (s : session_state) :
  next_session mode w s =
  match mode with
  | Material_Properties => after_tab3 w (after_tab2 w (after_tab1 w s))
  | _ => s
  end.
Proof.
  unfold next_session, main.
  destruct mode; try reflexivity.
  apply material_properties_module_session.
Qed.

Lemma after_tab3_db (w : widgets) (s : session_state) :
  db (after_tab3 w s) = db s.
Proof.
  unfold after_tab3. destruct (computes w s); [|reflexivity].
  now destruct (compute_composite _ _ _).
Qed.

(** ** Nothing is ever removed *)

(** Assigning in a dictionary keeps its keys in place and appends at
    most the assigned key. *)
Lemma setitem_grows {V : Type} (d : PyDict.t V) k v :
  exists added,
    PyDict.keys (PyDict.setitem d k v) = (PyDict.keys d ++ added)%list /\
    (added = [] \/ (added = [k] /\ ~ In k (PyDict.keys d))).
Proof.
  rewrite keys_setitem. destruct (PyDict.get d k) eqn:Hget.
  - exists []. rewrite app_nil_r. tauto.
  - exists [k]. apply get_None_iff in Hget. tauto.
Qed.

Lemma keys_grow_refl {V : Type} (d : PyDict.t V) (k : string) :
  exists added,
    PyDict.keys d = (PyDict.keys d ++ added)%list /\
    (added = [] \/ (added = [k] /\ ~ In k (PyDict.keys d))).
Proof. exists []. rewrite app_nil_r. tauto. Qed.

(** X1. A run of the script, in any mode and with any inputs, never
    removes or reorders an entry of the fiber mapping, the matrix mapping
    or the composite definitions: each keeps its keys in place and gains
    at most the name typed into its form, and only when that name is
    new; every record under another name is left as it was. *)
Theorem run_only_adds (mode : app_mode) (w : widgets) (s : session_state) :
  let s' := next_session mode w s in
  (exists added,
     PyDict.keys (fibers (db s')) = (PyDict.keys (fibers (db s)) ++ added)%list /\
     (added = [] \/
      (added = [fiber_name w] /\ ~ In (fiber_name w) (PyDict.keys (fibers (db s)))))) /\
  (exists added,
     PyDict.keys (matrices (db s')) = (PyDict.keys (matrices (db s)) ++ added)%list /\
     (added = [] \/
      (added = [matrix_name w] /\ ~ In (matrix_name w) (PyDict.keys (matrices (db s)))))) /\
  (exists added,
     PyDict.keys (composite_definitions s') =
       (PyDict.keys (composite_definitions s) ++ added)%list /\
     (added = [] \/
      (added = [composite_name w] /\
       ~ In (composite_name w) (PyDict.keys (composite_definitions s))))) /\
  (forall name, name <> fiber_name w ->
     PyDict.get (fibers (db s')) name = PyDict.get (fibers (db s)) name) /\
  (forall name, name <> matrix_name w ->
     PyDict.get (matrices (db s')) name = PyDict.get (matrices (db s)) name) /\
  (forall name, name <> composite_name w ->
     PyDict.get (composite_definitions s') name =
     PyDict.get (composite_definitions s) name).
Proof.
  cbv zeta. rewrite next_session_eq.
  destruct mode;
    try (repeat split; try apply keys_grow_refl; reflexivity).
  assert (Hcd : composite_definitions (after_tab2 w (after_tab1 w s)) =
                composite_definitions s).
  { unfold after_tab2, after_tab1.
    now destruct (add_matrix w && _), (add_fiber w && _). }
  assert (Hf : fibers (db (after_tab2 w (after_tab1 w s))) =
               if add_fiber w && str_truthy (fiber_name w)
               then PyDict.setitem (fibers (db s)) (fiber_name w)
                      (Constituent.mk (E_fiber w) (nu_fiber w) (G_fiber w)
                         (density_fiber w))
               else fibers (db s)).
  { unfold after_tab2, after_tab1.
    now destruct (add_matrix w && _), (add_fiber w && _). }
  assert (Hm : matrices (db (after_tab2 w (after_tab1 w s))) =
               if add_matrix w && str_truthy (matrix_name w)
               then PyDict.setitem (matrices (db s)) (matrix_name w)
                      (Constituent.mk (E_matrix w) (nu_matrix w) (G_matrix w)
                         (density_matrix w))
               else matrices (db s)).
  { unfold after_tab2, after_tab1.
    now destruct (add_matrix w && _), (add_fiber w && _). }
  set (s2 := after_tab2 w (after_tab1 w s)) in *.
  assert (Hc : composite_definitions (after_tab3 w s2) = composite_definitions s2 \/
               exists c, composite_definitions (after_tab3 w s2) =
                         PyDict.setitem (composite_definitions s2) (composite_name w) c).
  { unfold after_tab3. destruct (computes w s2); [|now left].
    destruct (compute_composite _ _ _) as [c|e]; [right; now exists c|now left]. }
  rewrite after_tab3_db, Hf, Hm.
  split; [|split; [|split; [|split; [|split]]]].
  - destruct (add_fiber w && _); [apply setitem_grows|apply keys_grow_refl].
  - destruct (add_matrix w && _); [apply setitem_grows|apply keys_grow_refl].
  - destruct Hc as [->|[c ->]]; rewrite Hcd;
      [apply keys_grow_refl|apply setitem_grows].
  - intros name Hne. destruct (add_fiber w && _); [|reflexivity].
    now apply get_setitem_other.
  - intros name Hne. destruct (add_matrix w && _); [|reflexivity].
    now apply get_setitem_other.
  - intros name Hne. destruct Hc as [->|[c ->]]; rewrite Hcd; [reflexivity|].
    now apply get_setitem_other.
Qed.

(** ** Invariants of reachable session states *)

Lemma constituents_ok_setitem table name c :
  constituents_ok table -> name <> EmptyString -> constituent_bounds c ->
  constituents_ok (PyDict.setitem table name c).
Proof.
  intros [Hwf Hall] Hname Hc. split; [now apply wf_setitem|].
  intros n c' Hin. apply In_setitem in Hin.
  destruct Hin as [[-> ->]|Hin]; [tauto|now apply Hall].
Qed.

Lemma str_truthy_nonempty (s : string) : str_truthy s = true -> s <> EmptyString.
Proof. destruct s; [discriminate|discriminate]. Qed.

(** The registry invariant is kept by the two forms, whose number inputs
    keep to their bounds and whose Add buttons act on a non-empty name
    only; the Composite Definition tab leaves the registry alone. *)
Lemma registry_kept_after_tab1 (w : widgets) (s : session_state) :
  constituents_ok (fibers (db s)) -> forms_in_bounds w ->
  constituents_ok (fibers (db (after_tab1 w s))) /\
  matrices (db (after_tab1 w s)) = matrices (db s).
Proof.
  intros Hf [Hbf _]. unfold after_tab1.
  destruct (add_fiber w && str_truthy (fiber_name w)) eqn:Hadd; [|now split].
  apply andb_prop in Hadd. destruct Hadd as [_ Hname].
  apply str_truthy_nonempty in Hname.
  split; [|reflexivity]. now apply constituents_ok_setitem.
Qed.

Lemma registry_kept_after_tab2 (w : widgets) (s : session_state) :
  constituents_ok (matrices (db s)) -> forms_in_bounds w ->
  constituents_ok (matrices (db (after_tab2 w s))) /\
  fibers (db (after_tab2 w s)) = fibers (db s).
Proof.
  intros Hm [_ Hbm]. unfold after_tab2.
  destruct (add_matrix w && str_truthy (matrix_name w)) eqn:Hadd; [|now split].
  apply andb_prop in Hadd. destruct Hadd as [_ Hname].
  apply str_truthy_nonempty in Hname.
  split; [|reflexivity]. now apply constituents_ok_setitem.
Qed.

Lemma next_session_registry (mode : app_mode) (w : widgets) (s : session_state) :
  constituents_ok (fibers (db s)) /\ constituents_ok (matrices (db s)) ->
  widgets_in_bounds w ->
  constituents_ok (fibers (db (next_session mode w s))) /\
  constituents_ok (matrices (db (next_session mode w s))).
Proof.
  intros [Hf Hm] (Hforms & _ & _). rewrite next_session_eq.
  destruct mode; try (now split).
  rewrite after_tab3_db.
  destruct (registry_kept_after_tab1 w s Hf Hforms) as [Hf1 Hm1].
  rewrite <- Hm1 in Hm.
  destruct (registry_kept_after_tab2 w (after_tab1 w s) Hm Hforms) as [Hm2 Hf2].
  rewrite <- Hf2 in Hf1. now split.
Qed.

Lemma reachable_registry (s : session_state) :
  reachable s ->
  constituents_ok (fibers (db s)) /\ constituents_ok (matrices (db s)).
Proof.
  induction 1 as [|mode w s Hreach IH Hw].
  - unfold constituents_ok, PyDict.wf. simpl.
    split; (split; [apply NoDup_nil|intros name c []]).
  - now apply next_session_registry.
Qed.

Lemma scenario_add_in_bounds fiber matrix press_fiber press_matrix :
  widgets_in_bounds (Scenario.add_form fiber matrix press_fiber press_matrix).
Proof.
  split; [|split]; try (intros n; split; vm_compute; discriminate).
  split; repeat split; vm_compute; discriminate.
Qed.

Lemma scenario_reachable : reachable Scenario.session.
Proof.
  change Scenario.session with
    (next_session Material_Properties
       (Scenario.add_form "Carbon" "Epoxy" false true)
       (next_session Material_Properties
          (Scenario.add_form "Carbon" EmptyString true false)
          initial_session_state)).
  apply reachable_run; [|apply scenario_add_in_bounds].
  apply reachable_run; [|apply scenario_add_in_bounds].
  apply reachable_initial.
Qed.

(** X2. In every reachable session state each registry mapping holds a
    name once, holds no empty name, and holds only constituents within
    the bounds their form declares: E, G and density at least 0.1 and a
    Poisson ratio between 0 and 0.5. *)
Theorem reachable_registry_invariant (s : session_state) :
  reachable s ->
  constituents_ok (fibers (db s)) /\ constituents_ok (matrices (db s)).
Proof.
  exact (reachable_registry s).
Qed.

Lemma reachable_registry_invariant_witness :
  constituents_ok (fibers Scenario.registry) /\
  constituents_ok (matrices Scenario.registry).
Proof.
  exact (reachable_registry_invariant Scenario.session scenario_reachable).
Defined.

(** ** The composite definitions of reachable session states *)

Lemma on_page_start (elements : list St.element) (s : F64.session_state) :
  F64.mk_run s elements [] = F64.on_page elements (F64.start s).
Proof. unfold F64.on_page, F64.start. cbn. now rewrite app_nil_r. Qed.

(** What is already on the page does not bear on a run: a number input,
    a selection loop, the Calculate branch and the whole tab do the
    same with it and leave it first on the page. *)
Lemma number_input_on_page w key elements r :
  F64.number_input w key (F64.on_page elements r) =
  (fst (F64.number_input w key r),
   F64.on_page elements (snd (F64.number_input w key r))).
Proof.
  unfold F64.number_input, F64.on_page. cbn [F64.keys F64.session F64.page].
  destruct (existsb (String.eqb key) (F64.keys r)); reflexivity.
Qed.

Lemma select_on_page w items elements : forall sel tot r,
  F64.select w items sel tot (F64.on_page elements r) =
  (fst (F64.select w items sel tot r),
   F64.on_page elements (snd (F64.select w items sel tot r))).
Proof.
  induction items as [|[name c] items IH]; intros sel tot r; [reflexivity|].
  cbn [F64.select]. unfold F64.bind. rewrite number_input_on_page.
  destruct (F64.number_input w (F64.vf_key name) r) as [[vf|e] r1]; cbn [fst snd];
    [|reflexivity].
  apply IH.
Qed.

Lemma after_check_on_page vf_error elements r :
  F64.after_check vf_error (F64.on_page elements r) =
  F64.on_page elements (F64.after_check vf_error r).
Proof.
  destruct vf_error as [msg|]; [|reflexivity].
  unfold F64.after_check, F64.on_page. cbn [F64.keys F64.session F64.page].
  now rewrite app_assoc.
Qed.

Lemma calculate_composite_on_page w fsel msel vf_error elements r :
  F64.calculate_composite w fsel msel vf_error (F64.on_page elements r) =
  (fst (F64.calculate_composite w fsel msel vf_error r),
   F64.on_page elements (snd (F64.calculate_composite w fsel msel vf_error r))).
Proof.
  rewrite !calculate_composite_f64_run.
  destruct (_ && _ && _); [|reflexivity].
  change (F64.session (F64.on_page elements r)) with (F64.session r).
  destruct (F64.compute_composite _ _ _); reflexivity.
Qed.

Lemma tab3_on_page w elements r :
  F64.tab3 w (F64.on_page elements r) =
  (fst (F64.tab3 w r), F64.on_page elements (snd (F64.tab3 w r))).
Proof.
  rewrite !tab3_f64_unfold. cbv zeta.
  change (F64.session (F64.on_page elements r)) with (F64.session r).
  destruct (negb _ || negb _).
  - unfold F64.on_page. cbn [fst snd F64.keys F64.session F64.page].
    now rewrite app_assoc.
  - rewrite select_on_page.
    destruct (F64.select w (F64.fibers _) [] 0%float r) as [[fiber|e] r1];
      cbn [fst snd]; [|reflexivity].
    rewrite select_on_page.
    destruct (F64.select w (F64.matrices _) [] 0%float r1) as [[matrix|e] r2];
      cbn [fst snd]; [|reflexivity].
    rewrite after_check_on_page. apply calculate_composite_on_page.
Qed.

(** The two registry tabs end normally; they write on the page and
    leave the session state [after_tab1], [after_tab2] give. *)
Lemma tab1_f64_run (f : F64.forms) (r : F64.run) :
  exists elements,
    F64.tab1 f r =
    (Ok tt,
     F64.mk_run (F64.after_tab1 f (F64.session r)) (F64.page r ++ elements)
       (F64.keys r)).
Proof.
  unfold F64.tab1, F64.after_tab1, F64.bind, F64.get, F64.modify, F64.write, F64.ret.
  destruct (F64.add_fiber f); [destruct (str_truthy (F64.fiber_name f))|];
    cbn [andb fst snd F64.session F64.page F64.keys];
    match goal with
    | |- context [PyDict.truthy ?d] => destruct (PyDict.truthy d)
    end;
    cbn [F64.session F64.page F64.keys]; rewrite <- ?app_assoc;
    first [ eexists; reflexivity
          | exists []; rewrite app_nil_r; destruct r; reflexivity ].
Qed.

Lemma tab2_f64_run (f : F64.forms) (r : F64.run) :
  exists elements,
    F64.tab2 f r =
    (Ok tt,
     F64.mk_run (F64.after_tab2 f (F64.session r)) (F64.page r ++ elements)
       (F64.keys r)).
Proof.
  unfold F64.tab2, F64.after_tab2, F64.bind, F64.get, F64.modify, F64.write, F64.ret.
  destruct (F64.add_matrix f); [destruct (str_truthy (F64.matrix_name f))|];
    cbn [andb fst snd F64.session F64.page F64.keys];
    match goal with
    | |- context [PyDict.truthy ?d] => destruct (PyDict.truthy d)
    end;
    cbn [F64.session F64.page F64.keys]; rewrite <- ?app_assoc;
    first [ eexists; reflexivity
          | exists []; rewrite app_nil_r; destruct r; reflexivity ].
Qed.

(** The session state a run leaves: in the Material Properties mode,
    what the Composite Definition tab leaves of the state the two
    registry tabs have left; in the other modes, the state itself. *)
Lemma next_session_f64 (mode : app_mode) (f : F64.forms) (w : F64.widgets)
    (s : F64.session_state) :
  F64.next_session mode f w s =
  match mode with
  | Material_Properties =>
      F64.session
        (snd (F64.tab3 w (F64.start (F64.after_tab2 f (F64.after_tab1 f s)))))
  | _ => s
  end.
Proof.
  unfold F64.next_session, F64.main. destruct mode; try reflexivity.
  unfold F64.material_properties_module, F64.bind.
  destruct (tab1_f64_run f (F64.start s)) as [e1 ->].
  destruct (tab2_f64_run f
              (F64.mk_run (F64.after_tab1 f (F64.session (F64.start s)))
                 (F64.page (F64.start s) ++ e1) (F64.keys (F64.start s))))
    as [e2 ->].
  cbn [F64.start F64.session F64.page F64.keys app].
  rewrite on_page_start, tab3_on_page. reflexivity.
Qed.

Lemma over_registered_setitem_f64 table (assignment : PyDict.t float) name c :
  F64.Spec.over_registered table assignment ->
  F64.Spec.over_registered (PyDict.setitem table name c) assignment.
Proof.
  intros Hreg n Hn. rewrite keys_setitem.
  destruct (PyDict.get table name); [now apply Hreg|].
  apply in_or_app. left. now apply Hreg.
Qed.

(** A stored composite stays well-formed when the registry grows. *)
Lemma composite_wellformed_grows (m m' : F64.materials_db) name c :
  (forall a, F64.Spec.over_registered (F64.fibers m) a ->
             F64.Spec.over_registered (F64.fibers m') a) ->
  (forall a, F64.Spec.over_registered (F64.matrices m) a ->
             F64.Spec.over_registered (F64.matrices m') a) ->
  F64.composite_wellformed m name c -> F64.composite_wellformed m' name c.
Proof.
  intros Hf Hm (H1 & H2 & H3 & H4 & H5 & H6 & H7 & H8 & H9).
  repeat (split; [assumption|]).
  split; [now apply Hf|]. split; [now apply Hm|]. exact H9.
Qed.

Lemma session_ok_after_tab1 (f : F64.forms) (s : F64.session_state) :
  F64.session_ok s -> F64.session_ok (F64.after_tab1 f s).
Proof.
  intros ([Hwf Hwm] & Hstore & Hall). unfold F64.after_tab1.
  destruct (F64.add_fiber f && str_truthy (F64.fiber_name f));
    [|split; [split; assumption|split; assumption]].
  split; [split; [now apply wf_setitem|exact Hwm]|].
  split; [exact Hstore|]. cbn [F64.set_fiber F64.composite_definitions F64.db].
  intros name c Hin.
  apply (composite_wellformed_grows (F64.db s)); [| |now apply Hall].
  - intros a Ha. now apply over_registered_setitem_f64.
  - intros a Ha. exact Ha.
Qed.

Lemma session_ok_after_tab2 (f : F64.forms) (s : F64.session_state) :
  F64.session_ok s -> F64.session_ok (F64.after_tab2 f s).
Proof.
  intros ([Hwf Hwm] & Hstore & Hall). unfold F64.after_tab2.
  destruct (F64.add_matrix f && str_truthy (F64.matrix_name f));
    [|split; [split; assumption|split; assumption]].
  split; [split; [exact Hwf|now apply wf_setitem]|].
  split; [exact Hstore|]. cbn [F64.set_matrix F64.composite_definitions F64.db].
  intros name c Hin.
  apply (composite_wellformed_grows (F64.db s)); [| |now apply Hall].
  - intros a Ha. exact Ha.
  - intros a Ha. now apply over_registered_setitem_f64.
Qed.

Lemma selected_nonempty_f64 table w :
  PyDict.truthy table = true -> F64.selected table w <> [].
Proof. destruct table; [discriminate|discriminate]. Qed.

(** The record the tab stores is well-formed. *)
Lemma stored_composite_wellformed (w : F64.widgets) (s : F64.session_state)
    (c : F64.Composite.t) :
  F64.registry_wf (F64.db s) -> F64.in_bounds w ->
  F64.compute_composite (F64.db s)
    (F64.selected (F64.fibers (F64.db s)) w)
    (F64.selected (F64.matrices (F64.db s)) w) = Ok c ->
  F64.vf_error w (F64.db s) = None ->
  F64.composite_name w <> EmptyString ->
  PyDict.truthy (F64.fibers (F64.db s)) = true ->
  PyDict.truthy (F64.matrices (F64.db s)) = true ->
  F64.clash (F64.db s) = None ->
  F64.composite_wellformed (F64.db s) (F64.composite_name w) c.
Proof.
  intros [Hwf Hwm] Hw Hc Hcheck Hname Hf Hm Hclash.
  apply compute_composite_f64_inv in Hc. destruct Hc as (_ & _ & Hfc & Hmc).
  unfold F64.composite_wellformed. rewrite Hfc, Hmc.
  split; [exact Hname|].
  split; [now apply selected_nonempty_f64|].
  split; [now apply selected_nonempty_f64|].
  split; [unfold PyDict.wf; now rewrite keys_selected_f64|].
  split; [unfold PyDict.wf; now rewrite keys_selected_f64|].
  split.
  { intros name. rewrite !keys_selected_f64. now apply clash_None. }
  split; [apply over_registered_selected|].
  split; [apply over_registered_selected|].
  split.
  - intros n v Hin. apply in_app_or in Hin.
    destruct Hin as [Hin|Hin]; apply in_selected_f64 in Hin;
      destruct Hin as [_ ->]; apply Hw.
  - rewrite <- !total_selected_f64. exact Hcheck.
Qed.

(** The Composite Definition tab keeps the invariant. *)
Lemma session_ok_after_tab3 (w : F64.widgets) (s : F64.session_state) :
  F64.in_bounds w -> F64.session_ok s ->
  F64.session_ok (F64.session (snd (F64.tab3 w (F64.start s)))).
Proof.
  intros Hw Hok. pose proof Hok as (Hreg & Hstore & Hall).
  destruct (tab3_f64_stores w s Hreg)
    as [->|(c & Hc & -> & _ & Hcheck & Hname & Hf & Hm & Hclash)]; [exact Hok|].
  cbn [snd F64.session].
  split; [exact Hreg|]. split; [now apply wf_setitem|].
  cbn [F64.set_composite F64.composite_definitions F64.db].
  intros name c' Hin. apply In_setitem in Hin.
  destruct Hin as [[-> ->]|Hin]; [|now apply Hall].
  now apply stored_composite_wellformed.
Qed.

Lemma next_session_ok (mode : app_mode) (f : F64.forms) (w : F64.widgets)
    (s : F64.session_state) :
  F64.in_bounds w -> F64.session_ok s -> F64.session_ok (F64.next_session mode f w s).
Proof.
  intros Hw Hok. rewrite next_session_f64. destruct mode; try exact Hok.
  apply session_ok_after_tab3; [exact Hw|].
  apply session_ok_after_tab2. now apply session_ok_after_tab1.
Qed.

Lemma reachable_session_ok (s : F64.session_state) :
  F64.reachable s -> F64.session_ok s.
Proof.
  induction 1 as [|mode f w s Hreach IH Hw].
  - split; [split; apply NoDup_nil|]. split; [apply NoDup_nil|intros name c []].
  - now apply next_session_ok.
Qed.

(** Three runs: Carbon is added, then Epoxy, then Carbon/Epoxy is
    computed at 0.6 and 0.4. *)
Lemma carbon_epoxy_session_reachable :
  F64.reachable
    (F64.next_session Material_Properties
       {| F64.fiber_name := "Carbon"; F64.E_fiber := 230; F64.nu_fiber := 0.2;
          F64.G_fiber := 90; F64.density_fiber := 1.8; F64.add_fiber := false;
          F64.matrix_name := "Epoxy"; F64.E_matrix := 3.5; F64.nu_matrix := 0.35;
          F64.G_matrix := 1.3; F64.density_matrix := 1.2; F64.add_matrix := false |}
       (F64.Scenario.composite_form "Carbon/Epoxy" 0.6 0.4 true)
       F64.Scenario.session).
Proof.
  apply F64.reachable_run.
  - change F64.Scenario.session with
      (F64.next_session Material_Properties
         {| F64.fiber_name := "Carbon"; F64.E_fiber := 230; F64.nu_fiber := 0.2;
            F64.G_fiber := 90; F64.density_fiber := 1.8; F64.add_fiber := false;
            F64.matrix_name := "Epoxy"; F64.E_matrix := 3.5; F64.nu_matrix := 0.35;
            F64.G_matrix := 1.3; F64.density_matrix := 1.2; F64.add_matrix := true |}
         (F64.Scenario.composite_form EmptyString 0.6 0.4 false)
         (F64.next_session Material_Properties
            {| F64.fiber_name := "Carbon"; F64.E_fiber := 230; F64.nu_fiber := 0.2;
               F64.G_fiber := 90; F64.density_fiber := 1.8; F64.add_fiber := true;
               F64.matrix_name := EmptyString; F64.E_matrix := 3.5;
               F64.nu_matrix := 0.35; F64.G_matrix := 1.3;
               F64.density_matrix := 1.2; F64.add_matrix := false |}
            (F64.Scenario.composite_form EmptyString 0.6 0.4 false)
            F64.initial_session_state)).
    apply F64.reachable_run; [apply F64.reachable_run; [apply F64.reachable_initial|]|];
      intros key; unfold F64.Scenario.composite_form; cbn [F64.vf_input];
      destruct (String.eqb key "vf_Carbon"); reflexivity.
  - intros key; unfold F64.Scenario.composite_form; cbn [F64.vf_input];
      destruct (String.eqb key "vf_Carbon"); reflexivity.
Qed.

(** X3. In every session state reachable from the initial one by runs
    of the script whose volume-fraction inputs keep to their bounds,
    runs that raise included, each mapping of the registry and the
    composite definitions hold a name once, and every stored composite
    has a non-empty name and two assignments that are not empty, hold
    each name once, have no name in common, name registered constituents
    only, hold fractions in [0, 1] and have a total that passes the
    balance check; so a composite is stored only in a session state with
    at least one fiber and one matrix registered. *)
Theorem reachable_store_invariant (s : F64.session_state) :
  F64.reachable s ->
  F64.registry_wf (F64.db s) /\
  PyDict.wf (F64.composite_definitions s) /\
  (forall name c, In (name, c) (F64.composite_definitions s) ->
     F64.composite_wellformed (F64.db s) name c) /\
  (PyDict.truthy (F64.composite_definitions s) = true ->
   PyDict.truthy (F64.fibers (F64.db s)) = true /\
   PyDict.truthy (F64.matrices (F64.db s)) = true).
Proof.
  intros Hreach. destruct (reachable_session_ok s Hreach) as (Hreg & Hwf & Hall).
  split; [exact Hreg|]. split; [exact Hwf|]. split; [exact Hall|].
  intros Hstored.
  destruct (F64.composite_definitions s) as [|[name c] rest] eqn:Hdefs;
    [discriminate|].
  destruct (Hall name c (or_introl eq_refl))
    as (_ & Hf & Hm & _ & _ & _ & Hrf & Hrm & _).
  split.
  - destruct (F64.Composite.fiber_constituents c) as [|[n v] fsel]; [congruence|].
    specialize (Hrf n (or_introl eq_refl)).
    destruct (F64.fibers (F64.db s)); [contradiction|reflexivity].
  - destruct (F64.Composite.matrix_constituents c) as [|[n v] msel]; [congruence|].
    specialize (Hrm n (or_introl eq_refl)).
    destruct (F64.matrices (F64.db s)); [contradiction|reflexivity].
Qed.

Lemma reachable_store_invariant_witness :
  exists s c,
    F64.reachable s /\
    F64.composite_definitions s = [("Carbon/Epoxy"%string, c)] /\
    F64.composite_wellformed (F64.db s) "Carbon/Epoxy" c.
Proof.
  eexists. eexists. split; [exact carbon_epoxy_session_reachable|].
  destruct (reachable_store_invariant _ carbon_epoxy_session_reachable)
    as (_ & _ & Hall & _).
  split; [vm_compute; reflexivity|].
  apply (Hall "Carbon/Epoxy"%string). vm_compute. now left.
Defined.

(** ** Repeating and replacing *)

Lemma set_fiber_again name c (s : session_state) :
  PyDict.setitem (fibers (db s)) name c = fibers (db s) ->
  set_fiber name c s = s.
Proof.
  intros H. unfold set_fiber. rewrite H. now destruct s as [[f m] cd].
Qed.

Lemma set_matrix_again name c (s : session_state) :
  PyDict.setitem (matrices (db s)) name c = matrices (db s) ->
  set_matrix name c s = s.
Proof.
  intros H. unfold set_matrix. rewrite H. now destruct s as [[f m] cd].
Qed.

Lemma computes_db (w : widgets) (s s' : session_state) :
  db s' = db s -> computes w s' = computes w s.
Proof. intros H. unfold computes. now rewrite H. Qed.

(** What [tab3] stores depends on the registry and the inputs only. *)
Lemma after_tab3_same_db (w : widgets) (s s' : session_state) :
  db s' = db s ->
  after_tab3 w s' =
  if computes w s then
    match compute_composite (db s)
            (fst (select (fibers (db s)) (fiber_vf w)))
            (fst (select (matrices (db s)) (matrix_vf w))) with
    | Ok c => set_composite (composite_name w) c s'
    | Raise _ => s'
    end
  else s'.
Proof.
  intros H. unfold after_tab3. rewrite (computes_db w s s' H). now rewrite H.
Qed.

Lemma set_composite_twice name c c' (s : session_state) :
  set_composite name c' (set_composite name c s) = set_composite name c' s.
Proof. unfold set_composite. simpl. now rewrite setitem_setitem. Qed.


Lemma after_tab3_idempotent (w : widgets) (s : session_state) :
  after_tab3 w (after_tab3 w s) = after_tab3 w s.
Proof.
  rewrite (after_tab3_same_db w s _ (after_tab3_db w s)).
  unfold after_tab3. destruct (computes w s); [|reflexivity].
  destruct (compute_composite _ _ _) as [c|e]; [|reflexivity].
  apply set_composite_twice.
Qed.

(** X5. Running the script again with the same mode and the same inputs
    leaves the session state the first run left: the second Add
    overwrites a record with itself and the second computation stores
    the same composite under the same name. *)
Theorem run_idempotent (mode : app_mode) (w : widgets) (s : session_state) :
  next_session mode w (next_session mode w s) = next_session mode w s.
Proof.
  rewrite !next_session_eq. destruct mode; try reflexivity.
  set (s2 := after_tab2 w (after_tab1 w s)).
  assert (Hf : after_tab1 w (after_tab3 w s2) = after_tab3 w s2).
  { unfold after_tab1. destruct (add_fiber w && str_truthy (fiber_name w)) eqn:Hadd;
      [|reflexivity].
    apply set_fiber_again. rewrite after_tab3_db. subst s2.
    unfold after_tab2, after_tab1. rewrite Hadd.
    destruct (add_matrix w && _); simpl; apply setitem_setitem. }
  rewrite Hf.
  assert (Hm : after_tab2 w (after_tab3 w s2) = after_tab3 w s2).
  { unfold after_tab2 at 1.
    destruct (add_matrix w && str_truthy (matrix_name w)) eqn:Hadd; [|reflexivity].
    apply set_matrix_again. rewrite after_tab3_db. subst s2.
    unfold after_tab2. rewrite Hadd. simpl. apply setitem_setitem. }
  rewrite Hm. apply after_tab3_idempotent.
Qed.



(** ** What the six properties depend on *)

Lemma sum_from_filter {A : Type} (f : A -> Q) (keep : A -> bool) (l : list A) :
  (forall x, In x l -> keep x = false -> f x == 0) ->
  forall a, sum_from f (filter keep l) a == sum_from f l a.
Proof.
  induction l as [|x l IH]; intros Hzero a; [reflexivity|].
  simpl. destruct (keep x) eqn:Hk.
  - unfold sum_from in *. simpl. apply IH. intros y Hy. apply Hzero. now right.
  - unfold sum_from in *. simpl.
    rewrite IH by (intros y Hy; apply Hzero; now right).
    fold (sum_from f l a). fold (sum_from f l (a + f x)).
    rewrite (sum_from_shift f l a), (sum_from_shift f l (a + f x)).
    rewrite (Hzero x (or_introl eq_refl) Hk). lra.
Qed.

Lemma truediv_agree (a a' b b' : Q) :
  a == a' -> b == b' ->
  match truediv a b, truediv a' b' with
  | Ok q, Ok q' => q == q'
  | Raise e, Raise e' => e = e'
  | _, _ => False
  end.
Proof.
  intros Ha Hb. unfold truediv.
  destruct (Qeq_bool b 0) eqn:H, (Qeq_bool b' 0) eqn:H'; try reflexivity.
  - apply Qeq_bool_iff in H. apply Qeq_bool_neq in H'. rewrite Hb in H. contradiction.
  - apply Qeq_bool_neq in H. apply Qeq_bool_iff in H'. rewrite Hb in H. contradiction.
  - now rewrite Ha, Hb.
Qed.

(** Equal sums give computations that agree, whatever the assignments
    recorded with them. *)
Lemma finish_agree cs cs' fsel msel fsel' msel' :
  same_sums cs cs' -> agree (finish cs fsel msel) (finish cs' fsel' msel').
Proof.
  intros (H1 & H2 & H3 & H4 & H5). unfold finish.
  pose proof (truediv_agree 1 1 _ _ (Qeq_refl 1) H2) as Hd2.
  destruct (truediv 1 (Spec.inv_E2 cs)) as [E2|e2],
           (truediv 1 (Spec.inv_E2 cs')) as [E2'|e2']; simpl; try contradiction;
    [|exact Hd2].
  pose proof (truediv_agree 1 1 _ _ (Qeq_refl 1) H3) as Hd3.
  destruct (truediv 1 (Spec.inv_G12 cs)) as [G12|e3],
           (truediv 1 (Spec.inv_G12 cs')) as [G12'|e3']; simpl; try contradiction;
    [|exact Hd3].
  assert (Hn : Spec.nu12 cs * E2 == Spec.nu12 cs' * E2') by now rewrite H4, Hd2.
  pose proof (truediv_agree _ _ _ _ Hn H1) as Hd1.
  destruct (truediv (Spec.nu12 cs * E2) (Spec.E1 cs)) as [nu21|e1],
           (truediv (Spec.nu12 cs' * E2') (Spec.E1 cs')) as [nu21'|e1']; simpl;
    try contradiction; [|exact Hd1].
  repeat split; assumption.
Qed.

Lemma compute_composite_finish (m : materials_db) (fsel msel : PyDict.t Q) :
  nonzero_moduli (fibers m) -> nonzero_moduli (matrices m) ->
  Spec.over_registered (fibers m) fsel ->
  Spec.over_registered (matrices m) msel ->
  compute_composite m fsel msel =
  finish (Spec.selected_constituents m fsel msel) fsel msel.
Proof. intros. now apply compute_composite_assigned. Qed.

(** ** Zero fractions *)

Lemma single_over_registered name c (v : Q) :
  Spec.over_registered [(name, c)] [(name, v)].
Proof. intros n Hn. exact Hn. Qed.


Lemma assigned_cons table name (v : Q) (rest : PyDict.t Q) :
  Spec.assigned table ((name, v) :: rest) =
  (match PyDict.get table name with
   | Some c => [(c, v)]
   | None => []
   end ++ Spec.assigned table rest)%list.
Proof. reflexivity. Qed.

Lemma assigned_without_zeros table (assignment : PyDict.t Q) :
  Spec.assigned table (without_zeros assignment) =
  filter (fun cv : Constituent.t * Q => negb (Qeq_bool (snd cv) 0))
    (Spec.assigned table assignment).
Proof.
  induction assignment as [|[name v] rest IH]; [reflexivity|].
  rewrite assigned_cons, filter_app, <- IH.
  unfold without_zeros. cbn [filter snd].
  destruct (Qeq_bool v 0) eqn:Hv; cbn [negb].
  - destruct (PyDict.get table name); cbn [filter snd]; [rewrite Hv|]; reflexivity.
  - rewrite assigned_cons.
    destruct (PyDict.get table name); cbn [filter snd]; [rewrite Hv|]; reflexivity.
Qed.

Lemma over_registered_without_zeros table (assignment : PyDict.t Q) :
  Spec.over_registered table assignment ->
  Spec.over_registered table (without_zeros assignment).
Proof.
  intros Hreg n Hn. apply Hreg. unfold PyDict.keys, without_zeros in *.
  apply in_map_iff in Hn. destruct Hn as [item [<- Hin]].
  apply filter_In in Hin. apply in_map. tauto.
Qed.

Lemma same_sums_without_zeros cs :
  same_sums (filter (fun cv : Constituent.t * Q => negb (Qeq_bool (snd cv) 0)) cs) cs.
Proof.
  assert (Hz : forall cv : Constituent.t * Q,
             negb (Qeq_bool (snd cv) 0) = false -> snd cv == 0).
  { intros cv H. apply negb_false_iff in H. now apply Qeq_bool_iff. }
  repeat split;
    apply (sum_from_filter (fun cv => _ (fst cv) (snd cv)));
    intros cv _ Hk; rewrite (Hz cv Hk); try (unfold Qdiv); ring.
Qed.

(** X8. Entries with fraction 0 contribute nothing: the computation on a
    pair of assignments agrees with the computation on the same
    assignments without their zero entries, whatever the properties of
    the constituents left at 0. *)
Theorem zero_fractions_contribute_nothing (m : materials_db)
    (fsel msel : PyDict.t Q) :
  positive_moduli (fibers m) -> positive_moduli (matrices m) ->
  Spec.over_registered (fibers m) fsel -> Spec.over_registered (matrices m) msel ->
  agree (compute_composite m (without_zeros fsel) (without_zeros msel))
        (compute_composite m fsel msel).
Proof.
  intros Hpf Hpm Hrf Hrm.
  destruct (registry_nonzero_moduli m Hpf Hpm) as [Hnf Hnm].
  rewrite (compute_composite_finish m fsel msel Hnf Hnm Hrf Hrm).
  rewrite (compute_composite_finish m _ _ Hnf Hnm
             (over_registered_without_zeros _ _ Hrf)
             (over_registered_without_zeros _ _ Hrm)).
  apply finish_agree. unfold Spec.selected_constituents.
  rewrite !assigned_without_zeros, <- filter_app.
  apply same_sums_without_zeros.
Qed.

Lemma zero_fractions_contribute_nothing_witness :
  agree (compute_composite Scenario.registry [("Carbon", 1.0)] [])
        (compute_composite Scenario.registry [("Carbon", 1.0)] [("Epoxy", 0.0)]).
Proof.
  exact (zero_fractions_contribute_nothing Scenario.registry
           [("Carbon", 1.0)] [("Epoxy", 0.0)]
           (proj1 scenario_positive_moduli) (proj2 scenario_positive_moduli)
           (single_over_registered _ _ _) (single_over_registered _ _ _)).
Defined.

(** ** A fiber and a matrix under one name *)

(** X14. The volume-fraction inputs of a fiber and of a matrix with the
    same name ask for the same key.  On a fresh run over a registry
    that holds each name once and has a fiber and a matrix, the tab
    raises Streamlit's duplicate-key exception exactly when some matrix
    shares its name with a fiber: it is raised at the input of the first such
    matrix, whatever the inputs, before the balance check, with nothing
    on the page and the session state as it was, so that no composite
    can be computed on such a registry. *)
Theorem shared_name_raises (w : F64.widgets) (s : F64.session_state) :
  let m := F64.db s in
  F64.registry_wf m ->
  PyDict.truthy (F64.fibers m) = true -> PyDict.truthy (F64.matrices m) = true ->
  (forall name, F64.clash m = Some name ->
     In name (PyDict.keys (F64.fibers m)) /\
     In name (PyDict.keys (F64.matrices m)) /\
     exists used,
       F64.tab3 w (F64.start s) =
       (Raise (DuplicateWidgetID (F64.vf_key name)), F64.mk_run s [] used)) /\
  (F64.clash m = None <->
   forall name, In name (PyDict.keys (F64.matrices m)) ->
                ~ In name (PyDict.keys (F64.fibers m))) /\
  (F64.clash m = None ->
   forall key, fst (F64.tab3 w (F64.start s)) <> Raise (DuplicateWidgetID key)).
Proof.
  intros m Hwf Hf Hm. subst m. split; [|split].
  - intros name Hclash. destruct (clash_Some _ _ Hclash) as [Hinm Hinf].
    split; [exact Hinf|]. split; [exact Hinm|].
    now apply tab3_f64_clash.
  - apply clash_None.
  - intros Hclash key. rewrite (tab3_f64_run w s Hwf Hclash), Hf, Hm.
    cbn [negb orb]. rewrite calculate_composite_f64_run.
    destruct (_ && _ && _); [|discriminate].
    pose proof (compute_composite_f64_exceptions
                  (F64.db (F64.session
                     (F64.after_check (F64.vf_error w (F64.db s))
                        (F64.mk_run s []
                           (F64.vf_keys (F64.fibers (F64.db s))
                            ++ F64.vf_keys (F64.matrices (F64.db s)))))))
                  (F64.selected (F64.fibers (F64.db s)) w)
                  (F64.selected (F64.matrices (F64.db s)) w) key) as Hexn.
    destruct (F64.compute_composite _ _ _) as [c|e]; [discriminate|].
    cbn [fst]. intros H. apply Hexn. congruence.
Qed.

Lemma shared_name_raises_witness :
  let w := F64.Scenario.composite_form "Hybrid/Hybrid" 0.6 0.4 true in
  F64.clash (F64.db F64.Scenario.hybrid_session) = Some "Hybrid" /\
  exists used,
    F64.tab3 w (F64.start F64.Scenario.hybrid_session) =
    (Raise (DuplicateWidgetID "vf_Hybrid"),
     F64.mk_run F64.Scenario.hybrid_session [] used).
Proof.
  intros w. split; [reflexivity|].
  assert (Hwf : F64.registry_wf (F64.db F64.Scenario.hybrid_session)).
  { split; unfold PyDict.wf; cbn; constructor; auto; constructor. }
  destruct (shared_name_raises w F64.Scenario.hybrid_session Hwf eq_refl eq_refl)
    as [Hraise _].
  destruct (Hraise "Hybrid" eq_refl) as (_ & _ & Hrun). exact Hrun.
Defined.

